(** * Data-Lens: the extraction and filtering pipeline

    A shallow embedding of [scraper/html_scraper.py] and
    [scraper/api_hunter.py].  The parsed document (what BeautifulSoup hands
    to the extractor), the list of records each sub-extraction appends to,
    the pandas frame built from them and the filter stage are modelled as
    the source has them: loops over [enumerate] become folds that carry the
    accumulated list, Python dicts become insertion-ordered association
    lists, and code that may raise returns a [result].

    Text is modelled over the ASCII range: [strip] removes the ASCII
    white space of [str.strip] and [upper] maps a-z to A-Z.

    The libraries the source calls are modelled as far as it uses them, with
    the behaviour of the versions it is written for: pandas 1.x and 2.x, where
    a column that holds a [str] has dtype object, and requests from 2.27 on,
    where [response.json()] raises requests.exceptions.JSONDecodeError.
    Python's [re] is a parameter of the filter stage. *)

From Stdlib Require Import List String Ascii ZArith Bool Arith Lia.
From Stdlib Require Import DecimalString DecimalNat.
Import ListNotations.
Set Warnings "-register-all".
Open Scope string_scope.
Open Scope list_scope.
Open Scope nat_scope.

(** ** Python built-ins used by the source *)
Module Py.

(** [str.isspace] on one ASCII character: TAB..CR, FS..US and SPACE. *)
Definition isspace (c : ascii) : bool :=
  let n := nat_of_ascii c in
  ((9 <=? n) && (n <=? 13)) || ((28 <=? n) && (n <=? 32)).

Fixpoint lstrip (s : string) : string :=
  match s with
  | EmptyString => EmptyString
  | String c s' => if isspace c then lstrip s' else s
  end.

Fixpoint rstrip (s : string) : string :=
  match s with
  | EmptyString => EmptyString
  | String c s' =>
      match rstrip s' with
      | EmptyString => if isspace c then EmptyString else String c EmptyString
      | r => String c r
      end
  end.

(** [s.strip()] *)
Definition strip (s : string) : string := rstrip (lstrip s).

(** Truthiness of a [str]: non-empty. *)
Definition truthy (s : string) : bool :=
  match s with EmptyString => false | _ => true end.

Definition upper_char (c : ascii) : ascii :=
  let n := nat_of_ascii c in
  if (97 <=? n) && (n <=? 122) then ascii_of_nat (n - 32) else c.

(** [s.upper()] *)
Fixpoint upper (s : string) : string :=
  match s with
  | EmptyString => EmptyString
  | String c s' => String (upper_char c) (upper s')
  end.

(** [pat in s] on strings: [pat] occurs in [s] as a contiguous substring. *)
Fixpoint str_in (pat s : string) : bool :=
  prefix pat s ||
  match s with
  | EmptyString => false
  | String _ s' => str_in pat s'
  end.

(** [s.split(sep)] for a one-character separator; never returns [[]]. *)
Fixpoint split (sep : ascii) (s : string) : list string :=
  match s with
  | EmptyString => [EmptyString]
  | String c s' =>
      if Ascii.eqb c sep then EmptyString :: split sep s'
      else match split sep s' with
           | h :: t => String c h :: t
           | [] => [String c EmptyString]
           end
  end.

(** [str(n)] for a non-negative and for an arbitrary [int]. *)
Definition str_of_nat (n : nat) : string := NilZero.string_of_uint (Nat.to_uint n).
Definition str_of_int (z : Z) : string := NilZero.string_of_int (Z.to_int z).

(** [enumerate(l)] *)
Definition enumerate {A : Type} (l : list A) : list (nat * A) :=
  combine (seq 0 (List.length l)) l.

(** A [dict] with [str] keys: insertion ordered, keys unique.  Assigning to a
    key that is present replaces the value where it stands. *)
Definition dict (V : Type) : Type := list (string * V).

Fixpoint dict_get {V : Type} (d : dict V) (k : string) : option V :=
  match d with
  | [] => None
  | (k', v) :: d' => if String.eqb k' k then Some v else dict_get d' k
  end.

Fixpoint dict_set {V : Type} (d : dict V) (k : string) (v : V) : dict V :=
  match d with
  | [] => [(k, v)]
  | (k', v') :: d' =>
      if String.eqb k' k then (k', v) :: d' else (k', v') :: dict_set d' k v
  end.

Definition dict_keys {V : Type} (d : dict V) : list string := map fst d.

(** [dict(items)]: later pairs overwrite earlier ones. *)
Definition dict_of_items {V : Type} (items : list (string * V)) : dict V :=
  fold_left (fun d kv => dict_set d (fst kv) (snd kv)) items [].

Definition lower_char (c : ascii) : ascii :=
  let n := nat_of_ascii c in
  if (65 <=? n) && (n <=? 90) then ascii_of_nat (n + 32) else c.

(** [s.lower()] *)
Fixpoint lower (s : string) : string :=
  match s with
  | EmptyString => EmptyString
  | String c s' => String (lower_char c) (lower s')
  end.

(** [k in d] and [d.pop(k, None)] on a dict: the entry under [k], of which
    there is at most one, is taken out. *)
Definition dict_has {V : Type} (d : dict V) (k : string) : bool :=
  match dict_get d k with Some _ => true | None => false end.

Fixpoint dict_pop {V : Type} (d : dict V) (k : string) : dict V :=
  match d with
  | [] => []
  | (k', v) :: d' =>
      if String.eqb k' k then dict_pop d' k else (k', v) :: dict_pop d' k
  end.

(** Code that may raise. *)
Inductive result (E A : Type) : Type :=
| Ok (a : A)
| Raise (e : E).
Arguments Ok {E A} a.
Arguments Raise {E A} e.

End Py.

(** ** The parsed document (bs4) *)
Module Soup.
Import Py.

(** A parse tree: tags with attributes and children, and the strings between
    them.  [Text] stands for the strings [get_text] collects (NavigableString
    and CData); comments and the like, which it skips, are left out. *)
Inductive node : Type :=
| Text (s : string)
| Elem (name : string) (attrs : list (string * string)) (children : list node).

(** [tag.descendants]: every node below [n], in document order. *)
Fixpoint descendants (n : node) : list node :=
  match n with
  | Text _ => []
  | Elem _ _ cs => flat_map (fun c => c :: descendants c) cs
  end.

Definition has_name (names : list string) (n : node) : bool :=
  match n with
  | Text _ => false
  | Elem nm _ _ => existsb (String.eqb nm) names
  end.

Definition has_attr (a : string) (n : node) : bool :=
  match n with
  | Text _ => false
  | Elem _ attrs _ => existsb (fun kv => String.eqb (fst kv) a) attrs
  end.

(** [tag.find_all(names)] *)
Definition find_all (names : list string) (n : node) : list node :=
  filter (has_name names) (descendants n).

(** [tag.find(name)]: the first match or [None]. *)
Definition find (name : string) (n : node) : option node :=
  match find_all [name] n with
  | [] => None
  | x :: _ => Some x
  end.

(** [tag.find_all(name, attr=True)] *)
Definition find_all_with_attr (name a : string) (n : node) : list node :=
  filter (fun x => has_name [name] x && has_attr a x) (descendants n).

(** [tag.get(a, '')] *)
Definition get_attr (a : string) (n : node) : string :=
  match n with
  | Text _ => ""
  | Elem _ attrs _ =>
      match dict_get attrs a with Some v => v | None => "" end
  end.

Definition stripped_strings (n : node) : list string :=
  flat_map (fun d => match d with
                     | Text s => if truthy (strip s) then [strip s] else []
                     | Elem _ _ _ => []
                     end) (descendants n).

(** [tag.get_text(strip=True)]: the strings below the tag, each stripped,
    the empty ones dropped, joined without a separator. *)
Definition get_text (n : node) : string :=
  fold_right String.append "" (stripped_strings n).

End Soup.

(** ** The pandas objects the source builds and indexes *)
Module Pandas.
Import Py.

Inductive dtype : Type := object | int64 | float64 | bool_.

Definition is_object (t : dtype) : bool :=
  match t with object => true | _ => false end.

(** A [Series]: values under their index labels. *)
Definition Series (A : Type) : Type := list (nat * A).

(** A [DataFrame]: the columns in order with their dtype, and the rows under
    their index labels.  A row holds the cells that are present; a column it
    lacks reads as NaN.  Filtering keeps labels and dtypes. *)
Record DataFrame (V : Type) : Type := mkDataFrame {
  columns : list (string * dtype);
  rows : list (nat * dict V)
}.
Arguments mkDataFrame {V} columns rows.
Arguments columns {V} d.
Arguments rows {V} d.

(** [pd.DataFrame()] *)
Definition empty_frame {V : Type} : DataFrame V := mkDataFrame [] [].

(** [len(df)], [df.empty], [df.index] *)
Definition len {V : Type} (df : DataFrame V) : nat := List.length (rows df).
Definition empty {V : Type} (df : DataFrame V) : bool :=
  (len df =? 0) || (List.length (columns df) =? 0).
Definition index {V : Type} (df : DataFrame V) : list nat := map fst (rows df).

Definition mem_string (k : string) (l : list string) : bool :=
  existsb (String.eqb k) l.

(** The column names of a list of dicts, in order of first appearance. *)
Definition union_keys {V : Type} (data : list (dict V)) : list string :=
  fold_left
    (fun cols r =>
       fold_left (fun cols k => if mem_string k cols then cols else cols ++ [k])
         (dict_keys r) cols)
    data [].

(** [pd.DataFrame(data)] for a list of dicts; [infer] gives the dtype pandas
    settles on for the cells of one column.  The index is 0..n-1. *)
Definition from_records {V : Type} (infer : list (option V) -> dtype)
    (data : list (dict V)) : DataFrame V :=
  mkDataFrame
    (map (fun c => (c, infer (map (fun r => dict_get r c) data)))
       (union_keys data))
    (enumerate data).

(** [df[col]] *)
Definition getitem_col {V : Type} (df : DataFrame V) (col : string)
    : Series (option V) :=
  map (fun lr => (fst lr, dict_get (snd lr) col)) (rows df).

Fixpoint lookup {A : Type} (s : Series A) (label : nat) : option A :=
  match s with
  | [] => None
  | (l, a) :: s' => if l =? label then Some a else lookup s' label
  end.

(** [pd.Series([False] * n)]: labelled 0..n-1. *)
Definition new_mask (n : nat) : Series bool :=
  map (fun i => (i, false)) (seq 0 n).

(** [mask |= other].  The operands are aligned on their labels, a label one
    side lacks counts as False, and the result is re-indexed like [mask]:
    [mask] keeps its own labels. *)
Definition ior (mask other : Series bool) : Series bool :=
  map (fun lb =>
         (fst lb,
          snd lb || match lookup other (fst lb) with
                    | Some b => b
                    | None => false
                    end))
    mask.

Inductive exn : Type :=
| IndexingError
| re_error (msg : string).

(** [df[mask]] for a boolean Series.  The key is re-indexed to the frame's
    index; a frame label the key lacks raises IndexingError (unalignable
    boolean Series). *)
Definition getitem_bool {V : Type} (df : DataFrame V) (mask : Series bool)
    : result exn (DataFrame V) :=
  if forallb (fun l => match lookup mask l with Some _ => true | None => false end)
       (index df)
  then Ok (mkDataFrame (columns df)
             (filter (fun lr => match lookup mask (fst lr) with
                                | Some b => b
                                | None => false
                                end) (rows df)))
  else Raise IndexingError.

(** [df.drop_duplicates()]: a row equal to an earlier one on every column is
    dropped; [eqb] compares two cells, NaN equal to NaN. *)
Definition row_eqb {V : Type} (eqb : option V -> option V -> bool)
    (cols : list (string * dtype)) (r1 r2 : dict V) : bool :=
  forallb (fun c => eqb (dict_get r1 (fst c)) (dict_get r2 (fst c))) cols.

Definition drop_duplicates {V : Type} (eqb : option V -> option V -> bool)
    (df : DataFrame V) : DataFrame V :=
  mkDataFrame (columns df)
    (fold_left
       (fun kept lr =>
          if existsb (fun k => row_eqb eqb (columns df) (snd k) (snd lr)) kept
          then kept else kept ++ [lr])
       (rows df) []).

End Pandas.

(** ** scraper/html_scraper.py: the four sub-extractions *)
Module HTMLScraper.
Import Py Soup.

(** What a record of the extractor holds: a [str] or an [int]. *)
Inductive value : Type :=
| VStr (s : string)
| VInt (z : Z).

Definition record : Type := dict value.

Definition vnat (n : nat) : value := VInt (Z.of_nat n).

(** Lines 72-82: the headers of one table. *)
Definition table_headers (table : node) : list string :=
  match find "thead" table with
  | Some header_row => map get_text (find_all ["th"; "td"] header_row)
  | None =>
      match find "tr" table with
      | Some first_row =>
          match find_all ["th"] first_row with
          | [] => []
          | potential_headers => map get_text potential_headers
          end
      | None => []
      end
  end.

(** Lines 97-100: the column a cell goes to. *)
Definition col_name (headers : list string) (cell_idx : nat) : string :=
  match headers with
  | [] => ("column_" ++ str_of_nat cell_idx)%string
  | _ => if cell_idx <? List.length headers
         then nth cell_idx headers ""
         else ("column_" ++ str_of_nat cell_idx)%string
  end.

(** Lines 89-93: the dict a row starts from. *)
Definition row_base (table_idx row_idx : nat) : record :=
  [("type", VStr "table"); ("table_index", vnat table_idx);
   ("row_index", vnat row_idx)].

(** Lines 89-102: the dict of one row, its cells assigned in order. *)
Definition row_data (headers : list string) (table_idx row_idx : nat)
    (cells : list node) : record :=
  fold_left
    (fun d ic => dict_set d (col_name headers (fst ic)) (VStr (get_text (snd ic))))
    (enumerate cells) (row_base table_idx row_idx).

Definition row_cells (row : node) : list node := find_all ["td"; "th"] row.

(** Lines 85-104: the rows of one table, appended to [data]. *)
Definition extract_rows (table_idx : nat) (table : node) (data : list record)
    : list record :=
  let headers := table_headers table in
  fold_left
    (fun data ir =>
       match row_cells (snd ir) with
       | [] => data
       | cells => data ++ [row_data headers table_idx (fst ir) cells]
       end)
    (enumerate (find_all ["tr"] table)) data.

(** [extract_tables], with [soup] the parsed document. *)
Definition extract_tables (soup : node) : list record :=
  fold_left (fun data it => extract_rows (fst it) (snd it) data)
    (enumerate (find_all ["table"] soup)) [].

Definition text_record (idx : nat) (text tag : string) : record :=
  [("type", VStr "text"); ("index", vnat idx); ("content", VStr text);
   ("tag", VStr tag)].

(** One loop of [extract_text] over the elements named [tag]; [keep] is the
    test the loop applies to the stripped text. *)
Definition extract_tag (keep : string -> bool) (tag : string) (soup : node)
    (data : list record) : list record :=
  fold_left
    (fun data ie =>
       let text := get_text (snd ie) in
       if keep text then data ++ [text_record (fst ie) text tag] else data)
    (enumerate (find_all [tag] soup)) data.

Definition heading_tags : list string := ["h1"; "h2"; "h3"; "h4"; "h5"; "h6"].

(** [extract_text]: paragraphs, then each heading level, then the long divs. *)
Definition extract_text (soup : node) : list record :=
  let data := extract_tag truthy "p" soup [] in
  let data :=
    fold_left (fun data heading_tag => extract_tag truthy heading_tag soup data)
      heading_tags data in
  extract_tag (fun text => truthy text && (50 <? String.length text)) "div"
    soup data.

(** [extract_links] *)
Definition extract_links (soup : node) : list record :=
  fold_left
    (fun data il =>
       data ++ [[("type", VStr "link"); ("index", vnat (fst il));
                 ("text", VStr (get_text (snd il)));
                 ("url", VStr (get_attr "href" (snd il)));
                 ("title", VStr (get_attr "title" (snd il)))]])
    (enumerate (find_all_with_attr "a" "href" soup)) [].

(** [extract_images] *)
Definition extract_images (soup : node) : list record :=
  fold_left
    (fun data ii =>
       data ++ [[("type", VStr "image"); ("index", vnat (fst ii));
                 ("src", VStr (get_attr "src" (snd ii)));
                 ("alt", VStr (get_attr "alt" (snd ii)));
                 ("title", VStr (get_attr "title" (snd ii)))]])
    (enumerate (find_all_with_attr "img" "src" soup)) [].

(** *** The frame of the records and the filter stage *)

Import Pandas.

Definition is_str (c : option value) : bool :=
  match c with Some (VStr _) => true | _ => false end.

Definition is_missing (c : option value) : bool :=
  match c with None => true | _ => false end.

(** The dtype of a column of [str], [int] and missing cells: object as soon
    as a [str] is present, else float64 when a cell is missing (NaN), else
    int64. *)
Definition infer_dtype (cells : list (option value)) : dtype :=
  if existsb is_str cells then object
  else if existsb is_missing cells then float64
  else int64.

(** Line 54: [pd.DataFrame(all_data)] *)
Definition DataFrame_of (all_data : list record) : DataFrame value :=
  from_records infer_dtype all_data.

(** [series.astype(str)] on one cell: NaN becomes the text nan. *)
Definition astype_str (c : option value) : string :=
  match c with
  | Some (VStr s) => s
  | Some (VInt z) => str_of_int z
  | None => "nan"
  end.

(** [series.astype(str).str.contains(kw, case=False, na=False, regex=False)]:
    both sides upper-cased, then a substring test. *)
Definition contains_literal (kw : string) (s : Series (option value))
    : Series bool :=
  map (fun lc => (fst lc, str_in (upper kw) (upper (astype_str (snd lc))))) s.

Definition value_eqb (a b : option value) : bool :=
  match a, b with
  | None, None => true
  | Some (VStr x), Some (VStr y) => String.eqb x y
  | Some (VInt x), Some (VInt y) => Z.eqb x y
  | _, _ => false
  end.

(** The configuration dict; a flag that is absent reads as False and a filter
    that is absent ([None]) as the empty string. *)
Record Config : Type := mkConfig {
  tables : bool;
  text : bool;
  links : bool;
  images : bool;
  keyword_filter : option string;
  regex_filter : option string;
  remove_duplicates : bool
}.

(** Lines 35-48: [all_data] after the four optional extractions. *)
Definition collect (soup : node) (config : Config) : list record :=
  let all_data := if tables config then extract_tables soup else [] in
  let all_data := all_data ++ (if text config then extract_text soup else []) in
  let all_data := all_data ++ (if links config then extract_links soup else []) in
  all_data ++ (if images config then extract_images soup else []).

(** [config.get(key, '')] *)
Definition get_str (o : option string) : string :=
  match o with Some s => s | None => "" end.

Section Filters.

(** Python's [re], as [str.contains(..., case=False, regex=True)] uses it:
    [re_compile] is [re.compile(pat, re.IGNORECASE)], [inr msg] when it raises
    [re.error]; [re_search r s] tells whether [r.search(s)] finds a match. *)
Variable regex : Type.
Variable re_compile : string -> regex + string.
Variable re_search : regex -> string -> bool.

(** [series.astype(str).str.contains(pat, case=False, na=False, regex=True)] *)
Definition contains_regex (pat : string) (s : Series (option value))
    : result exn (Series bool) :=
  match re_compile pat with
  | inr msg => Raise (re_error msg)
  | inl r => Ok (map (fun lc => (fst lc, re_search r (astype_str (snd lc)))) s)
  end.

(** Lines 204-212: the keyword mask. *)
Definition keyword_mask (df : DataFrame value) (keywords : list string)
    : Series bool :=
  fold_left
    (fun mask kw =>
       if truthy kw then
         fold_left
           (fun mask col =>
              if is_object (snd col)
              then ior mask (contains_literal kw (getitem_col df (fst col)))
              else mask)
           (columns df) mask
       else mask)
    keywords (new_mask (len df)).

(** Lines 221-227: the regex mask; the first object column compiles the
    pattern and may raise. *)
Definition regex_mask (df : DataFrame value) (regex_pattern : string)
    : result exn (Series bool) :=
  fold_left
    (fun acc col =>
       match acc with
       | Raise e => Raise e
       | Ok mask =>
           if is_object (snd col) then
             match contains_regex regex_pattern (getitem_col df (fst col)) with
             | Ok other => Ok (ior mask other)
             | Raise e => Raise e
             end
           else Ok mask
       end)
    (columns df) (Ok (new_mask (len df))).

(** Lines 198-214. *)
Definition keyword_stage (df : DataFrame value) (config : Config)
    : result exn (DataFrame value) :=
  let keyword := strip (get_str (keyword_filter config)) in
  if truthy keyword then
    let keywords := map strip (split "," keyword) in
    getitem_bool df (keyword_mask df keywords)
  else Ok df.

(** Lines 217-231: what is printed, and the frame or the exception that
    leaves the [try]. *)
Definition regex_stage (df : DataFrame value) (config : Config)
    : list string * result exn (DataFrame value) :=
  let regex_pattern := strip (get_str (regex_filter config)) in
  if truthy regex_pattern then
    match regex_mask df regex_pattern with
    | Ok mask =>
        match getitem_bool df mask with
        | Ok df' => ([], Ok df')
        | Raise (re_error msg) =>
            ([("Invalid regex pattern: " ++ msg)%string], Ok df)
        | Raise e => ([], Raise e)
        end
    | Raise (re_error msg) =>
        ([("Invalid regex pattern: " ++ msg)%string], Ok df)
    | Raise e => ([], Raise e)
    end
  else ([], Ok df).

(** [apply_filters]: the lines printed and the frame returned or the
    exception raised. *)
Definition apply_filters (df : DataFrame value) (config : Config)
    : list string * result exn (DataFrame value) :=
  if empty df then ([], Ok df)
  else
    match keyword_stage df config with
    | Raise e => ([], Raise e)
    | Ok df => regex_stage df config
    end.

(** [scrape], from the parsed document on. *)
Definition scrape (soup : node) (config : Config)
    : list string * result exn (DataFrame value) :=
  match collect soup config with
  | [] => ([], Ok empty_frame)
  | _ =>
      match apply_filters (DataFrame_of (collect soup config)) config with
      | (out, Ok df) =>
          (out, Ok (if remove_duplicates config
                    then drop_duplicates value_eqb df else df))
      | (out, Raise e) => (out, Raise e)
      end
  end.

End Filters.

End HTMLScraper.

(** ** scraper/api_hunter.py: the JSON normalizer and the fetch *)
Module APIHunter.
Import Py Pandas.

(** A decoded JSON value; a [dict] keeps its insertion order. *)
Inductive json : Type :=
| JNull
| JBool (b : bool)
| JInt (z : Z)
| JFloat (literal : string)
| JStr (s : string)
| JList (l : list json)
| JDict (d : list (string * json)).

(** A cell of the frame: a JSON value as decoded, or [str(l)] of a list. *)
Inductive cell : Type :=
| CVal (v : json)
| CStrOf (l : list json).

(** Line 159: [f"{parent_key}{sep}{k}" if parent_key else k] *)
Definition new_key (parent_key sep k : string) : string :=
  if truthy parent_key then (parent_key ++ sep ++ k)%string else k.

(** [flatten_dict(d, parent_key, sep)], with [d] given as [JDict d]. *)
Fixpoint flatten_dict (d : json) (parent_key sep : string) : dict cell :=
  match d with
  | JDict kvs =>
      dict_of_items
        (flat_map
           (fun kv =>
              let '(k, v) := kv in
              match v with
              | JDict _ => flatten_dict v (new_key parent_key sep k) sep
              | JList l => [(new_key parent_key sep k, CStrOf l)]
              | _ => [(new_key parent_key sep k, CVal v)]
              end)
           kvs)
  | _ => []
  end.

Definition is_dict (v : json) : bool :=
  match v with JDict _ => true | _ => false end.

Definition is_number (c : option cell) : bool :=
  match c with
  | Some (CVal (JInt _)) | Some (CVal (JFloat _)) | Some (CVal JNull) | None => true
  | _ => false
  end.

Definition is_int (c : option cell) : bool :=
  match c with Some (CVal (JInt _)) => true | _ => false end.

Definition is_bool (c : option cell) : bool :=
  match c with Some (CVal (JBool _)) => true | _ => false end.

Definition has_number (c : option cell) : bool :=
  match c with
  | Some (CVal (JInt _)) | Some (CVal (JFloat _)) => true
  | _ => false
  end.

(** The dtype of a column of decoded JSON cells: int64 for ints only, bool
    for booleans only, float64 for numbers with floats, nulls or gaps, and
    object for the rest and for a column without cells. *)
Definition infer_dtype (cells : list (option cell)) : dtype :=
  if (List.length cells =? 0) then object
  else if forallb is_int cells then int64
  else if forallb is_bool cells then bool_
  else if forallb is_number cells && existsb has_number cells then float64
  else object.

Inductive exn : Type :=
| RequestException (msg : string)
| JSONDecodeError (msg : string)
| AttributeError (msg : string)
| Exception (msg : string).

(** [type(v).__name__] *)
Definition type_name (v : json) : string :=
  match v with
  | JNull => "NoneType"
  | JBool _ => "bool"
  | JInt _ => "int"
  | JFloat _ => "float"
  | JStr _ => "str"
  | JList _ => "list"
  | JDict _ => "dict"
  end.

(** [pd.DataFrame(data)] for a list whose first element is a dict: the dicts
    are the rows; pandas asks every element for its [keys()], and the first
    element that is no dict raises AttributeError. *)
Definition frame_of_dicts (data : list json)
    : result exn (DataFrame cell) :=
  match List.find (fun v => negb (is_dict v)) data with
  | Some v =>
      Raise (AttributeError
               ("'" ++ type_name v ++ "' object has no attribute 'keys'")%string)
  | None =>
      Ok (from_records infer_dtype
            (map (fun v => match v with
                           | JDict d => map (fun kv => (fst kv, CVal (snd kv))) d
                           | _ => []
                           end) data))
  end.

(** [pd.DataFrame({'value': data})] *)
Definition frame_of_values (data : list json) : DataFrame cell :=
  mkDataFrame
    [("value", infer_dtype (map (fun v => Some (CVal v)) data))]
    (enumerate (map (fun v => [("value", CVal v)]) data)).

(** Lines 131-137: the list branch of [json_to_dataframe]. *)
Definition list_to_dataframe (data : list json)
    : result exn (DataFrame cell) :=
  match data with
  | JDict _ :: _ => frame_of_dicts data
  | _ => Ok (frame_of_values data)
  end.

Definition envelope_keys : list string :=
  ["results"; "items"; "data"; "list"; "records"].

(** Lines 142-144: the first of the five keys that is present with a list as
    its value, and that list. *)
Fixpoint find_envelope (keys : list string) (d : list (string * json))
    : option (list json) :=
  match keys with
  | [] => None
  | key :: keys' =>
      match dict_get d key with
      | Some (JList l) => Some l
      | _ => find_envelope keys' d
      end
  end.

(** [json_to_dataframe].  The call on [data[key]] is a call on a list, which
    the list branch answers without recursing further. *)
Definition json_to_dataframe (data : json) : result exn (DataFrame cell) :=
  match data with
  | JList l => list_to_dataframe l
  | JDict d =>
      match find_envelope envelope_keys d with
      | Some l => list_to_dataframe l
      | None => Ok (from_records infer_dtype [flatten_dict data "" "_"])
      end
  | _ => Ok (frame_of_values [data])
  end.

(** What [requests.get] and [response.json()] give for one URL: the GET
    raises (a RequestException), or a response arrives with its status and
    its body, decoded or not decodable. *)
Inductive http_reply : Type :=
| TransportFailure (msg : string)
| Response (status : nat) (reason : string) (body : json + string).

(** [response.raise_for_status()]: HTTPError for 4xx and 5xx. *)
Definition raise_for_status (status : nat) : bool :=
  (400 <=? status) && (status <? 600).

(** The text of the HTTPError that [raise_for_status] raises. *)
Definition http_error_msg (status : nat) (reason url : string) : string :=
  (str_of_nat status
   ++ (if (status <? 500)%nat then " Client Error: " else " Server Error: ")
   ++ reason ++ " for url: " ++ url)%string.

(** Lines 100-110: the body of the [try]. *)
Definition fetch_body (url : string) (reply : http_reply)
    : result exn (DataFrame cell) :=
  match reply with
  | TransportFailure msg => Raise (RequestException msg)
  | Response status reason body =>
      if raise_for_status status
      then Raise (RequestException (http_error_msg status reason url))
      else match body with
           | inr msg => Raise (JSONDecodeError msg)
           | inl data => json_to_dataframe data
           end
  end.

(** [isinstance(e, requests.RequestException)].  [response.json()] raises
    requests.exceptions.JSONDecodeError, which derives from both
    RequestException (through InvalidJSONError) and json.JSONDecodeError. *)
Definition is_RequestException (e : exn) : bool :=
  match e with
  | RequestException _ | JSONDecodeError _ => true
  | _ => false
  end.

Definition is_json_JSONDecodeError (e : exn) : bool :=
  match e with JSONDecodeError _ => true | _ => false end.

Definition str_of_exn (e : exn) : string :=
  match e with
  | RequestException m | JSONDecodeError m | AttributeError m | Exception m => m
  end.

(** [fetch_api_data]: the lines printed and the frame returned or the
    exception raised; the [except] clauses are tried in source order. *)
Definition fetch_api_data (url : string) (reply : http_reply)
    : list string * result exn (DataFrame cell) :=
  match fetch_body url reply with
  | Ok df => ([], Ok df)
  | Raise e =>
      if is_RequestException e then
        ([("API request failed: " ++ str_of_exn e)%string],
         Raise (Exception ("Failed to fetch API: " ++ str_of_exn e)%string))
      else if is_json_JSONDecodeError e then
        ([("JSON parse failed: " ++ str_of_exn e)%string],
         Raise (Exception "Response is not valid JSON"))
      else
        ([("API fetch error: " ++ str_of_exn e)%string], Raise e)
  end.

(** *** The captured URLs and the request interceptor *)

(** Lines 40-41. *)
Definition api_indicators : list string :=
  ["/api/"; "/json"; "/data/"; "format=json"; "ajax"; "/v1/"; "/v2/"; "/rest/"].

(** [APIRequestInterceptor.is_api_request] *)
Definition is_api_request (url : string) : bool :=
  let url_lower := lower url in
  existsb (fun indicator => str_in indicator url_lower) api_indicators.

(** [captured_apis], a [set] of URLs: each URL at most once.  Python leaves
    the order of a set open; the model lists the URLs in the order they were
    first added, and nothing below depends on the order. *)
Definition captured : Type := list string.

Definition no_captured : captured := [].

(** [add_api_url] *)
Definition add_api_url (captured_apis : captured) (url : string) : captured :=
  if existsb (String.eqb url) captured_apis then captured_apis
  else captured_apis ++ [url].

(** [get_captured_apis] *)
Definition get_captured_apis (captured_apis : captured) : list string :=
  captured_apis.

(** [clear_captured_apis] *)
Definition clear_captured_apis (captured_apis : captured) : captured := [].

(** [APIRequestInterceptor.interceptRequest], on the URL of the request. *)
Definition interceptRequest (captured_apis : captured) (url : string)
    : captured :=
  if is_api_request url then add_api_url captured_apis url else captured_apis.

(** *** Readings of a normalized table *)

(** A cell that is no object and no list: a scalar or the text of a list. *)
Definition is_flat (c : cell) : bool :=
  match c with
  | CStrOf _ => true
  | CVal (JDict _) | CVal (JList _) => false
  | CVal _ => true
  end.

(** The list [json_to_dataframe] turns into rows, if it does. *)
Definition row_source (data : json) : option (list json) :=
  match data with
  | JList l => Some l
  | JDict d => find_envelope envelope_keys d
  | _ => None
  end.

End APIHunter.

(** ** The filter stage, row by row *)
Module Kept.
Import Py Pandas HTMLScraper.

(** The keywords the code searches for: the comma-separated segments of the
    stripped [keyword_filter], each stripped. *)
Definition keywords_of (config : Config) : list string :=
  map strip (split "," (strip (get_str (keyword_filter config)))).

(** The pattern the code hands to [re]. *)
Definition pattern_of (config : Config) : string :=
  strip (get_str (regex_filter config)).

(** A row meets the keyword predicate: some non-empty keyword occurs, case
    ignored, in the text of some cell of an object column; a cell the row
    lacks has the text nan. *)
Definition keyword_match (keywords : list string)
    (cols : list (string * dtype)) (r : record) : bool :=
  existsb
    (fun kw =>
       truthy kw &&
       existsb (fun c => is_object (snd c) &&
                         str_in (upper kw) (upper (astype_str (dict_get r (fst c)))))
         cols)
    keywords.

(** A row meets the regex predicate under a compiled pattern. *)
Definition regex_match {regex : Type} (re_search : regex -> string -> bool)
    (rx : regex) (cols : list (string * dtype)) (r : record) : bool :=
  existsb (fun c => is_object (snd c) &&
                    re_search rx (astype_str (dict_get r (fst c))))
    cols.

(** The frame carries the default index 0..n-1, as one made by
    [pd.DataFrame(all_data)] does. *)
Definition range_indexed (df : DataFrame value) : Prop :=
  index df = seq 0 (len df).

Definition has_object_column (df : DataFrame value) : bool :=
  existsb (fun c => is_object (snd c)) (columns df).

(** The record holds a [str] under type. *)
Definition typed (r : record) : Prop :=
  exists s, dict_get r "type" = Some (VStr s).

(** The frame with the rows that satisfy [p], labels and columns kept. *)
Definition keep_rows (p : record -> bool) (df : DataFrame value)
    : DataFrame value :=
  mkDataFrame (columns df) (filter (fun lr => p (snd lr)) (rows df)).

End Kept.

(** ** The records of a document, read off its elements *)
Module Emitted.
Import Py Soup HTMLScraper.



(** What one row contributes. *)
Definition emit_row (headers : list string) (table_idx : nat)
    (ir : nat * node) : list record :=
  match row_cells (snd ir) with
  | [] => []
  | cells => [row_data headers table_idx (fst ir) cells]
  end.


(** Lines 96-102 from cell number [s] on, starting from the dict [d]. *)
Definition assign_cell (headers : list string) (d : record)
    (ic : nat * node) : record :=
  dict_set d (col_name headers (fst ic)) (VStr (get_text (snd ic))).

Definition assign_cells_from (headers : list string) (s : nat) (d : record)
    (cells : list node) : record :=
  fold_left (assign_cell headers) (combine (seq s (List.length cells)) cells) d.

(** What one element contributes to the text records. *)
Definition emit_text (keep : string -> bool) (tag : string)
    (ie : nat * node) : list record :=
  if keep (get_text (snd ie))
  then [text_record (fst ie) (get_text (snd ie)) tag]
  else [].

(** The tag groups of [extract_text] in loop order, each with its test. *)
Definition long_text (text : string) : bool :=
  truthy text && (50 <? String.length text).

Definition text_groups : list (string * (string -> bool)) :=
  ("p", truthy) :: map (fun h => (h, truthy)) heading_tags
  ++ [("div", long_text)].

(** The text records of one tag group. *)
Definition tag_records (soup : node) (g : string * (string -> bool))
    : list record :=
  flat_map (emit_text (snd g) (fst g)) (enumerate (find_all [fst g] soup)).

End Emitted.

(** ** utils/recipe_manager.py *)
Module RecipeManager.
Import Py APIHunter.

(** The file at the path of a recipe: absent, unreadable or not JSON (with
    the text of the exception), or holding a JSON value. *)
Inductive recipe_file : Type :=
| Absent
| Unreadable (msg : string)
| Holds (recipe : json).

(** What [load_recipe] catches and prints after Error loading recipe. *)
Inductive load_error : Type :=
| FileError (msg : string)
| TypeError_not_iterable (type : string)
| TypeError_indices (type : string).

(** Lines 26-30: the recipe [save_recipe] hands to [json.dump]. *)
Definition recipe_of (config : json) : json :=
  JDict [("version", JStr "1.0"); ("config", config)].

(** [save_recipe]: what is printed, the file after the call and the value
    returned.  [failure] is [None] when opening and writing go through, else
    the text of the exception and the state the file is left in. *)
Definition save_recipe (failure : option (string * recipe_file)) (config : json)
    : list string * recipe_file * bool :=
  match failure with
  | None => ([], Holds (recipe_of config), true)
  | Some (msg, after) => ([("Error saving recipe: " ++ msg)%string], after, false)
  end.

(** Lines 58-63: ['config' in recipe] and [recipe['config']] on whatever
    JSON value the file held. *)
Definition unwrap_recipe (recipe : json) : result load_error json :=
  match recipe with
  | JDict d =>
      match dict_get d "config" with
      | Some config => Ok config
      | None => Ok recipe
      end
  | JList l =>
      if existsb (fun v => match v with
                           | JStr s => String.eqb s "config"
                           | _ => false
                           end) l
      then Raise (TypeError_indices "list")
      else Ok recipe
  | JStr s =>
      if str_in "config" s then Raise (TypeError_indices "str") else Ok recipe
  | _ => Raise (TypeError_not_iterable (type_name recipe))
  end.

(** [load_recipe]: the exception printed, if any, and the value returned,
    [JNull] being Python's None. *)
Definition load_recipe (file : recipe_file) : option load_error * json :=
  match file with
  | Absent => (None, JNull)
  | Unreadable msg => (Some (FileError msg), JNull)
  | Holds recipe =>
      match unwrap_recipe recipe with
      | Ok config => (None, config)
      | Raise e => (Some e, JNull)
      end
  end.

Definition required_keys : list string := ["tables"; "text"; "links"; "images"].

(** Lines 83-87, on the keys still to check. *)
Fixpoint first_missing (keys : list string) (config : dict json)
    : option string :=
  match keys with
  | [] => None
  | key :: keys' =>
      if dict_has config key then first_missing keys' config else Some key
  end.

(** [validate_recipe], for a config that is a dict. *)
Definition validate_recipe (config : dict json) : bool * option string :=
  match first_missing required_keys config with
  | Some key => (false, Some ("Missing required key: " ++ key)%string)
  | None => (true, None)
  end.

End RecipeManager.

(** ** ui/bookmarks_manager.py: BookmarksManager *)
Module BookmarksManager.
Import Py.

(** A bookmark as the file and the manager hold it: a dict of strings. *)
Definition bookmark : Type := dict string.

Inductive exn : Type := KeyError (key : string).

(** The manager: the list in memory and what [save_bookmarks] was last asked
    to write ([None] before the first call). *)
Record manager : Type := mkManager {
  bookmarks : list bookmark;
  last_saved : option (list bookmark)
}.

(** [save_bookmarks]: the list in memory goes to the file. *)
Definition save_bookmarks (m : manager) : manager :=
  mkManager (bookmarks m) (Some (bookmarks m)).

(** Lines 44-46: the first bookmark of the list decides: a KeyError when it
    has no url, True when its url is [url]; else the next one is asked. *)
Fixpoint already_bookmarked (bs : list bookmark) (url : string)
    : result exn bool :=
  match bs with
  | [] => Ok false
  | b :: bs' =>
      match dict_get b "url" with
      | None => Raise (KeyError "url")
      | Some u => if String.eqb u url then Ok true else already_bookmarked bs' url
      end
  end.

(** [add_bookmark] *)
Definition add_bookmark (m : manager) (url title : string)
    : result exn (manager * bool) :=
  match already_bookmarked (bookmarks m) url with
  | Raise e => Raise e
  | Ok true => Ok (m, false)
  | Ok false =>
      Ok (save_bookmarks
            (mkManager (bookmarks m ++ [[("url", url); ("title", title)]])
               (last_saved m)),
          true)
  end.

(** Line 57: [[b for b in self.bookmarks if b['url'] != url]] *)
Fixpoint without_url (bs : list bookmark) (url : string)
    : result exn (list bookmark) :=
  match bs with
  | [] => Ok []
  | b :: bs' =>
      match dict_get b "url" with
      | None => Raise (KeyError "url")
      | Some u =>
          match without_url bs' url with
          | Raise e => Raise e
          | Ok rest => Ok (if String.eqb u url then rest else b :: rest)
          end
      end
  end.

(** [remove_bookmark] *)
Definition remove_bookmark (m : manager) (url : string) : result exn manager :=
  match without_url (bookmarks m) url with
  | Raise e => Raise e
  | Ok bs => Ok (save_bookmarks (mkManager bs (last_saved m)))
  end.

(** [get_bookmarks] *)
Definition get_bookmarks (m : manager) : list bookmark := bookmarks m.

(** The urls of the bookmarks that have one. *)
Definition urls (bs : list bookmark) : list string :=
  flat_map (fun b => match dict_get b "url" with
                     | Some u => [u]
                     | None => []
                     end) bs.

Definition well_formed (bs : list bookmark) : Prop :=
  forall b, In b bs -> dict_has b "url" = true.

End BookmarksManager.

(** ** ui/notes_dialog.py: the notes kept per URL *)
Module NotesDialog.
Import Py.

(** The dialog: [all_notes], the URL being edited ([None] at first) and what
    [save_all_notes] was last asked to write. *)
Record dialog : Type := mkDialog {
  all_notes : dict string;
  current_url : option string;
  last_saved : option (dict string)
}.

(** [load_notes]: the dialog after the call and the text put in the editor. *)
Definition load_notes (d : dialog) (url : string) : dialog * string :=
  (mkDialog (all_notes d) (Some url) (last_saved d),
   match dict_get (all_notes d) url with Some notes => notes | None => "" end).

(** [save_notes], [text] being what the editor holds. *)
Definition save_notes (d : dialog) (text : string) : dialog :=
  match current_url d with
  | None => d
  | Some url =>
      if truthy url then
        let notes_text := strip text in
        let notes :=
          if truthy notes_text then dict_set (all_notes d) url notes_text
          else dict_pop (all_notes d) url in
        mkDialog notes (current_url d) (Some notes)
      else d
  end.

End NotesDialog.

(** ** ui/main_window.py: the address bar *)
Module MainWindow.
Import Py.

(** [navigate_to_url]: the URL handed to the view for the text of the address
    bar, [None] when the method returns without navigating. *)
Definition navigate_to_url (text : string) : option string :=
  let url := strip text in
  if negb (truthy url) then None
  else if negb (prefix "http" url) && negb (prefix "file://" url) then
    if str_in "." url && negb (str_in " " url)
    then Some ("https://" ++ url)%string
    else Some ("https://www.google.com/search?q=" ++ url)%string
  else Some url.

End MainWindow.

(** ** Rows that repeat *)
Module Dedup.

(** No element of [l] is the same, by [same], as an element of [acc] or as
    an element before it in [l]. *)
Fixpoint all_new {A : Type} (same : A -> A -> bool) (acc l : list A) : bool :=
  match l with
  | [] => true
  | x :: t =>
      negb (existsb (fun k => same k x) acc) && all_new same (acc ++ [x]) t
  end.

End Dedup.

(** ** Link and image records, element by element *)
Module Anchors.
Import Py Soup HTMLScraper.

Definition link_record (idx : nat) (link : node) : record :=
  [("type", VStr "link"); ("index", vnat idx);
   ("text", VStr (get_text link));
   ("url", VStr (get_attr "href" link));
   ("title", VStr (get_attr "title" link))].

Definition image_record (idx : nat) (img : node) : record :=
  [("type", VStr "image"); ("index", vnat idx);
   ("src", VStr (get_attr "src" img));
   ("alt", VStr (get_attr "alt" img));
   ("title", VStr (get_attr "title" img))].


End Anchors.

(** ** Concrete inputs *)
Module Examples.
Import Py Soup Pandas HTMLScraper.

(** An instance of the [re] interface on the fragment the examples need: a
    pattern of letters, digits and spaces, with or without a leading [^], is
    searched for without regard to case; any other pattern, such as the
    unbalanced parenthesis, counts as one that [re.compile] rejects. *)
Definition plain_char (c : ascii) : bool :=
  let n := nat_of_ascii c in
  ((48 <=? n) && (n <=? 57)) || ((65 <=? n) && (n <=? 90))
  || ((97 <=? n) && (n <=? 122)) || (n =? 32).

Fixpoint plain (s : string) : bool :=
  match s with
  | EmptyString => true
  | String c s' => plain_char c && plain s'
  end.

Definition regex : Type := bool * string.

Definition re_compile (pat : string) : regex + string :=
  match pat with
  | String "^" lit =>
      if plain lit then inl (true, upper lit)
      else inr "unsupported pattern"
  | _ =>
      if plain pat then inl (false, upper pat)
      else inr "missing ), unterminated subpattern at position 0"
  end.

Definition re_search (r : regex) (s : string) : bool :=
  if fst r then prefix (snd r) (upper s) else str_in (snd r) (upper s).

Definition cfg (keyword regex_pat : string) : Config :=
  mkConfig true false false false (Some keyword) (Some regex_pat) false.

(** The end-to-end document of the specification:
    <table><tr><th>Name</th><th>Age</th></tr><tr><td>Al</td><td>30</td></tr></table> *)
Definition name_age_table : node :=
  Elem "table" []
    [Elem "tr" [] [Elem "th" [] [Text "Name"]; Elem "th" [] [Text "Age"]];
     Elem "tr" [] [Elem "td" [] [Text "Al"]; Elem "td" [] [Text "30"]]].

Definition name_age_doc : node :=
  Elem "[document]" [] [Elem "html" [] [Elem "body" [] [name_age_table]]].

(** The single record the specification expects from it. *)
Definition name_age_expected : record :=
  [("type", VStr "table"); ("table_index", vnat 0); ("row_index", vnat 1);
   ("Name", VStr "Al"); ("Age", VStr "30")].

(** The record the header row itself gives. *)
Definition name_age_header : record :=
  [("type", VStr "table"); ("table_index", vnat 0); ("row_index", vnat 0);
   ("Name", VStr "Name"); ("Age", VStr "Age")].


(** One row whose four cells all fall under a header named type. *)
Definition type_headers : list string := ["type"; "type"; "type"; "type"].
Definition four_cells : list node :=
  [Elem "td" [] [Text "a"]; Elem "td" [] [Text "b"];
   Elem "td" [] [Text "c"]; Elem "td" [] [Text "d"]].

Definition apple_banana : list record :=
  [[("x", VStr "Apple")]; [("x", VStr "Banana")]].

Definition apple_pear : list record :=
  [[("x", VStr "Apple")]; [("y", VStr "Pear")]].

(** A table without any string-typed column. *)
Definition numbers_only : list record := [[("n", VInt 1)]].

(** What the instance above answers for an unbalanced parenthesis. *)
Definition unbalanced_msg : string :=
  "missing ), unterminated subpattern at position 0".

End Examples.

(** ** Further concrete inputs *)
Module Samples.
Import Py Soup Pandas HTMLScraper APIHunter.

(** <a href="/x" title="t">Go</a><a>no href</a><img src="p.png"> *)
Definition link_doc : node :=
  Elem "[document]" []
    [Elem "a" [("href", "/x"); ("title", "t")] [Text "Go"];
     Elem "a" [] [Text "no href"];
     Elem "img" [("src", "p.png")] []].

Definition no_flags : Config :=
  mkConfig false false false false (Some "x") (Some "(") true.

Definition text_only : Config :=
  mkConfig false true false false None None false.

Definition all_flags (keyword regex_pat : string) : Config :=
  mkConfig true true true true (Some keyword) (Some regex_pat) true.


Definition two_bookmarks : list BookmarksManager.bookmark :=
  [[("url", "https://a.example/"); ("title", "A")];
   [("url", "https://b.example/"); ("title", "B")]].

Definition fresh_manager : BookmarksManager.manager :=
  BookmarksManager.mkManager two_bookmarks None.

Definition some_notes : NotesDialog.dialog :=
  NotesDialog.mkDialog [("https://a.example/", "first")] None None.

End Samples.

(** * Properties *)

Import Py Soup Pandas.

(** ** Loops that append *)
Section Loops.
Context {A B : Type}.

Lemma fold_left_pointwise (f g : list B -> A -> list B) (l : list A) :
  (forall acc x, f acc x = g acc x) ->
  forall init, fold_left f l init = fold_left g l init.
Proof.
  intros Hfg. induction l as [|x l IH]; intros init; simpl.
  - reflexivity.
  - rewrite Hfg. apply IH.
Qed.

Lemma fold_left_emit (emit : A -> list B) (l : list A) :
  forall init,
    fold_left (fun acc x => acc ++ emit x) l init = init ++ flat_map emit l.
Proof.
  induction l as [|x l IH]; intros init; simpl.
  - now rewrite app_nil_r.
  - rewrite IH. now rewrite app_assoc.
Qed.


Lemma In_combine_seq (l : list A) :
  forall s i x,
    In (i, x) (combine (seq s (List.length l)) l) <->
    s <= i /\ nth_error l (i - s) = Some x.
Proof.
  induction l as [|y l IH]; intros s i x; simpl.
  - split; [tauto|]. intros [_ H]. destruct (i - s); discriminate.
  - rewrite IH. split.
    + intros [H | [Hle H]].
      * inversion H; subst. split; [lia|]. now rewrite Nat.sub_diag.
      * split; [lia|]. replace (i - s) with (S (i - S s)) by lia. exact H.
    + intros [Hle H]. destruct (Nat.eq_dec i s) as [->|Hne].
      * left. rewrite Nat.sub_diag in H. simpl in H. now inversion H.
      * right. split; [lia|].
        replace (i - s) with (S (i - S s)) in H by lia. exact H.
Qed.

Lemma In_enumerate (l : list A) (i : nat) (x : A) :
  In (i, x) (enumerate l) <-> nth_error l i = Some x.
Proof.
  unfold enumerate. rewrite In_combine_seq. rewrite Nat.sub_0_r.
  split; [tauto | intros H; split; [lia | exact H]].
Qed.


End Loops.

(** ** Table extraction *)
Import HTMLScraper Emitted Examples.

Lemma extract_rows_emits (table_idx : nat) (table : node) (data : list record) :
  extract_rows table_idx table data
  = data ++ flat_map (emit_row (table_headers table) table_idx)
              (enumerate (find_all ["tr"] table)).
Proof.
  unfold extract_rows. rewrite <- fold_left_emit.
  apply fold_left_pointwise. intros acc ir. unfold emit_row.
  destruct (row_cells (snd ir)); [now rewrite app_nil_r | reflexivity].
Qed.

Lemma extract_tables_emits (soup : node) :
  extract_tables soup
  = flat_map (fun it => flat_map (emit_row (table_headers (snd it)) (fst it))
                          (enumerate (find_all ["tr"] (snd it))))
      (enumerate (find_all ["table"] soup)).
Proof.
  unfold extract_tables.
  rewrite (fold_left_pointwise _
             (fun acc it => acc ++ flat_map (emit_row (table_headers (snd it)) (fst it))
                                     (enumerate (find_all ["tr"] (snd it))))).
  - now rewrite fold_left_emit.
  - intros acc it. apply extract_rows_emits.
Qed.


Lemma dict_get_set_other {V : Type} (d : dict V) (k k' : string) (v : V) :
  k' <> k -> dict_get (dict_set d k' v) k = dict_get d k.
Proof.
  intros Hne. induction d as [|[k0 v0] d IH]; simpl.
  - destruct (String.eqb_spec k' k); [contradiction | reflexivity].
  - destruct (String.eqb_spec k0 k') as [->|Hk0]; simpl.
    + destruct (String.eqb_spec k' k); [contradiction | reflexivity].
    + now rewrite IH.
Qed.

Lemma dict_get_set_same {V : Type} (d : dict V) (k : string) (v : V) :
  dict_get (dict_set d k v) k = Some v.
Proof.
  induction d as [|[k0 v0] d IH]; simpl.
  - now rewrite String.eqb_refl.
  - destruct (String.eqb_spec k0 k) as [->|Hk0]; simpl.
    + now rewrite String.eqb_refl.
    + destruct (String.eqb_spec k0 k); [contradiction | exact IH].
Qed.


Lemma In_emit_row (headers : list string) (i j : nat) (row : node) (rec : record) :
  In rec (emit_row headers i (j, row)) <->
  row_cells row <> [] /\ rec = row_data headers i j (row_cells row).
Proof.
  unfold emit_row. simpl. destruct (row_cells row) as [|c cs]; simpl.
  - split; [tauto | intros [H _]; now apply H].
  - split.
    + intros [H | []]. split; [discriminate | now symmetry].
    + intros [_ H]. left. now symmetry.
Qed.



(** ** One row: cells that share a column *)
Section RowCells.
Variable headers : list string.


Lemma length_dict_set_le {V : Type} (d : dict V) (k : string) (v : V) :
  List.length (dict_set d k v) <= S (List.length d).
Proof.
  induction d as [|[k0 v0] d IH]; simpl; [lia|].
  destruct (String.eqb k0 k); simpl; lia.
Qed.

Lemma length_dict_set_present {V : Type} (d : dict V) (k : string) (v : V) :
  In k (dict_keys d) -> List.length (dict_set d k v) = List.length d.
Proof.
  induction d as [|[k0 v0] d IH]; simpl; [tauto|].
  intros Hin. destruct (String.eqb_spec k0 k) as [->|Hne]; simpl; [reflexivity|].
  rewrite IH; [reflexivity|]. destruct Hin; [contradiction | assumption].
Qed.

Lemma dict_set_keeps_keys {V : Type} (d : dict V) (k k' : string) (v : V) :
  In k (dict_keys d) -> In k (dict_keys (dict_set d k' v)).
Proof.
  induction d as [|[k0 v0] d IH]; simpl; [tauto|].
  intros [Heq|Hin]; destruct (String.eqb k0 k'); simpl; auto.
Qed.

Lemma dict_set_has_key {V : Type} (d : dict V) (k : string) (v : V) :
  In k (dict_keys (dict_set d k v)).
Proof.
  induction d as [|[k0 v0] d IH]; simpl; [now left|].
  destruct (String.eqb_spec k0 k) as [->|Hne]; simpl; auto.
Qed.

Lemma cells_from_length (cells : list node) :
  forall s d, List.length (assign_cells_from headers s d cells) <= List.length d + List.length cells.
Proof.
  unfold assign_cells_from.
  induction cells as [|c cells IH]; intros s d; simpl; [lia|].
  specialize (IH (S s) (assign_cell headers d (s, c))).
  pose proof (length_dict_set_le d (col_name headers s) (VStr (get_text c))) as Hle.
  unfold assign_cell in *. simpl in *. lia.
Qed.

Lemma cells_from_untouched (cells : list node) (name : string) :
  forall s d,
    (forall k', k' < List.length cells -> col_name headers (s + k') <> name) ->
    dict_get (assign_cells_from headers s d cells) name = dict_get d name.
Proof.
  unfold assign_cells_from.
  induction cells as [|c cells IH]; intros s d Hne; simpl; [reflexivity|].
  rewrite IH.
  - unfold assign_cell. simpl. apply dict_get_set_other.
    specialize (Hne 0). rewrite Nat.add_0_r in Hne. apply Hne. simpl. lia.
  - intros k' Hk'. specialize (Hne (S k')). rewrite Nat.add_succ_r in Hne.
    apply Hne. simpl. lia.
Qed.

Lemma cells_from_last_wins (cells : list node) :
  forall s d k cell,
    nth_error cells k = Some cell ->
    (forall k', k < k' -> k' < List.length cells ->
                col_name headers (s + k') <> col_name headers (s + k)) ->
    dict_get (assign_cells_from headers s d cells) (col_name headers (s + k))
    = Some (VStr (get_text cell)).
Proof.
  induction cells as [|c cells IH]; intros s d k cell Hk Hlast.
  - destruct k; discriminate.
  - destruct k as [|k]; simpl in Hk.
    + inversion Hk; subst c. unfold assign_cells_from. simpl.
      fold (assign_cells_from headers (S s) (assign_cell headers d (s, cell)) cells).
      rewrite Nat.add_0_r in *. rewrite cells_from_untouched.
      * unfold assign_cell. simpl. apply dict_get_set_same.
      * intros k' Hk'. specialize (Hlast (S k')). rewrite Nat.add_succ_r in Hlast.
        apply Hlast; simpl; lia.
    + unfold assign_cells_from. simpl.
      fold (assign_cells_from headers (S s) (assign_cell headers d (s, c)) cells).
      rewrite Nat.add_succ_r. apply (IH (S s)); [exact Hk|].
      intros k' Hlt Hlen. simpl.
      specialize (Hlast (S k')). rewrite !Nat.add_succ_r in Hlast.
      apply Hlast; simpl; lia.
Qed.

Lemma cells_from_overwrite_shrinks (cells : list node) :
  forall s d k cell,
    nth_error cells k = Some cell ->
    In (col_name headers (s + k)) (dict_keys d)
    \/ (exists k0, k0 < k /\ col_name headers (s + k0) = col_name headers (s + k)) ->
    List.length (assign_cells_from headers s d cells) < List.length d + List.length cells.
Proof.
  induction cells as [|c cells IH]; intros s d k cell Hk Hdup.
  - destruct k; discriminate.
  - unfold assign_cells_from. simpl. fold (assign_cells_from headers (S s) (assign_cell headers d (s, c)) cells).
    destruct k as [|k]; simpl in Hk.
    + rewrite Nat.add_0_r in Hdup. destruct Hdup as [Hin | (k0 & Hlt & _)]; [|lia].
      pose proof (cells_from_length cells (S s) (assign_cell headers d (s, c))) as Hle.
      unfold assign_cell in Hle. simpl in Hle.
      rewrite length_dict_set_present in Hle by exact Hin.
      unfold assign_cell. simpl. lia.
    + pose proof (length_dict_set_le d (col_name headers s) (VStr (get_text c))) as Hset.
      assert (Hlt : List.length (assign_cells_from headers (S s) (assign_cell headers d (s, c)) cells)
                    < List.length (assign_cell headers d (s, c)) + List.length cells).
      { apply (IH (S s) _ k cell Hk). simpl. rewrite Nat.add_succ_r in Hdup.
        destruct Hdup as [Hin | (k0 & Hk0 & Heq)].
        - left. unfold assign_cell. now apply dict_set_keeps_keys.
        - destruct k0 as [|k0].
          + left. rewrite Nat.add_0_r in Heq. rewrite <- Heq.
            unfold assign_cell. simpl. apply dict_set_has_key.
          + right. exists k0. split; [lia|].
            now rewrite Nat.add_succ_r in Heq. }
      unfold assign_cell in *. simpl in *. lia.
Qed.

(** C9.  In the record of one row, the column a cell goes to holds the text
    of the last cell that goes to it: the values of earlier cells under that
    name, and a type, table_index or row_index of that name, are overwritten.
    The record has at most 3 + (number of cells) columns, and strictly fewer
    as soon as a cell goes to a column that an earlier cell or the row's own
    type, table_index or row_index already made; four cells under four
    headers named type leave a record of 3 columns, fewer than its cells. *)
Theorem row_data_last_cell_wins (i j : nat) (cells : list node) (k : nat)
    (cell : node) :
  nth_error cells k = Some cell ->
  (forall k', k < k' -> k' < List.length cells ->
              col_name headers k' <> col_name headers k) ->
  dict_get (row_data headers i j cells) (col_name headers k)
  = Some (VStr (get_text cell))
  /\ List.length (row_data headers i j cells) <= 3 + List.length cells
  /\ (In (col_name headers k) ["type"; "table_index"; "row_index"]
      \/ (exists k0, k0 < k /\ col_name headers k0 = col_name headers k) ->
      List.length (row_data headers i j cells) < 3 + List.length cells)
  /\ List.length (row_data type_headers 0 0 four_cells) < List.length four_cells.
Proof.
  intros Hk Hlast.
  change (row_data headers i j cells) with (assign_cells_from headers 0 (row_base i j) cells).
  repeat apply conj.
  - apply (cells_from_last_wins cells 0 (row_base i j) k cell Hk Hlast).
  - apply (cells_from_length cells 0 (row_base i j)).
  - intros Hdup.
    apply (cells_from_overwrite_shrinks cells 0 (row_base i j) k cell Hk Hdup).
  - simpl. lia.
Qed.

End RowCells.

Lemma row_data_last_cell_wins_witness :
  dict_get (row_data type_headers 0 0 four_cells) "type" = Some (VStr "d")
  /\ List.length (row_data type_headers 0 0 four_cells) <= 3 + 4
  /\ (In "type" ["type"; "table_index"; "row_index"]
      \/ (exists k0, k0 < 3 /\ col_name type_headers k0 = "type") ->
      List.length (row_data type_headers 0 0 four_cells) < 3 + 4)
  /\ List.length (row_data type_headers 0 0 four_cells) < List.length four_cells.
Proof.
  apply (row_data_last_cell_wins type_headers 0 0 four_cells 3
           (Elem "td" [] [Text "d"])).
  - reflexivity.
  - intros k' Hlt Hlen. simpl in Hlen. lia.
Defined.

(** ** Text extraction *)

Lemma extract_tag_emits (keep : string -> bool) (tag : string) (soup : node)
    (data : list record) :
  extract_tag keep tag soup data = data ++ tag_records soup (tag, keep).
Proof.
  unfold extract_tag, tag_records. simpl. rewrite <- fold_left_emit.
  apply fold_left_pointwise. intros acc ie. unfold emit_text.
  destruct (keep (get_text (snd ie))); [reflexivity | now rewrite app_nil_r].
Qed.

Lemma extract_text_emits (soup : node) :
  extract_text soup = flat_map (tag_records soup) text_groups.
Proof.
  unfold extract_text, text_groups, heading_tags. simpl.
  rewrite !extract_tag_emits. simpl. rewrite app_nil_r.
  now rewrite <- !app_assoc.
Qed.

Lemma In_emit_text (keep : string -> bool) (tag : string) (i : nat) (e : node)
    (rec : record) :
  In rec (emit_text keep tag (i, e)) <->
  keep (get_text e) = true /\ rec = text_record i (get_text e) tag.
Proof.
  unfold emit_text. simpl. destruct (keep (get_text e)); simpl.
  - split.
    + intros [H | []]. now split.
    + intros [_ H]. now left.
  - split; [tauto | intros [H _]; discriminate].
Qed.


(** ** Masks and boolean indexing *)
Import Kept.

Lemma map_fst_enumerate {A : Type} (l : list A) :
  map fst (enumerate l) = seq 0 (List.length l).
Proof.
  unfold enumerate. generalize 0.
  induction l as [|x l IH]; intros s; simpl; [reflexivity|].
  now rewrite IH.
Qed.

Lemma DataFrame_of_range_indexed (all_data : list record) :
  range_indexed (DataFrame_of all_data).
Proof.
  unfold range_indexed, index, len, DataFrame_of, from_records. simpl.
  rewrite map_fst_enumerate. unfold enumerate.
  rewrite length_combine, length_seq. now rewrite Nat.min_id.
Qed.

Lemma lookup_false_seq (n : nat) :
  forall s l, s <= l -> l < s + n ->
    lookup (map (fun i => (i, false)) (seq s n)) l = Some false.
Proof.
  induction n as [|n IH]; intros s l Hle Hlt; simpl; [lia|].
  destruct (Nat.eqb_spec s l); [reflexivity|]. apply IH; lia.
Qed.

Lemma lookup_new_mask (n l : nat) : l < n -> lookup (new_mask n) l = Some false.
Proof. intros Hlt. apply lookup_false_seq; lia. Qed.

Lemma lookup_false_seq_out (n : nat) :
  forall s l, l < s \/ s + n <= l ->
    lookup (map (fun i => (i, false)) (seq s n)) l = None.
Proof.
  induction n as [|n IH]; intros s l Hout; simpl; [reflexivity|].
  destruct (Nat.eqb_spec s l); [lia|]. apply IH. lia.
Qed.

Lemma lookup_new_mask_out (n l : nat) : n <= l -> lookup (new_mask n) l = None.
Proof. intros Hle. apply lookup_false_seq_out. lia. Qed.

Lemma lookup_ior (mask other : Series bool) (l : nat) :
  lookup (ior mask other) l
  = match lookup mask l with
    | Some b => Some (b || match lookup other l with
                           | Some b' => b'
                           | None => false
                           end)
    | None => None
    end.
Proof.
  induction mask as [|[l0 b0] mask IH]; simpl; [reflexivity|].
  destruct (Nat.eqb_spec l0 l) as [->|Hne]; [reflexivity | exact IH].
Qed.

Lemma lookup_rows {V B : Type} (rws : list (nat * dict V)) (g : dict V -> B)
    (l : nat) (r : dict V) :
  NoDup (map fst rws) -> In (l, r) rws ->
  lookup (map (fun lr => (fst lr, g (snd lr))) rws) l = Some (g r).
Proof.
  induction rws as [|[l0 r0] rws IH]; simpl; intros Hnd Hin; [contradiction|].
  inversion Hnd as [|x xs Hnotin Hnd']; subst.
  destruct Hin as [Heq | Hin].
  - inversion Heq; subst. now rewrite Nat.eqb_refl.
  - destruct (Nat.eqb_spec l0 l) as [->|Hne].
    + exfalso. apply Hnotin. apply in_map_iff. now exists (l, r).
    + now apply IH.
Qed.

Lemma getitem_bool_pointwise (df : DataFrame value) (mask : Series bool)
    (p : record -> bool) :
  (forall l r, In (l, r) (rows df) -> lookup mask l = Some (p r)) ->
  getitem_bool df mask = Ok (keep_rows p df).
Proof.
  intros Hp. unfold getitem_bool, keep_rows.
  replace (forallb _ (index df)) with true.
  - f_equal. f_equal. apply filter_ext_in. intros [l r] Hin. simpl.
    now rewrite (Hp l r Hin).
  - symmetry. apply forallb_forall. intros l Hl. unfold index in Hl.
    apply in_map_iff in Hl. destruct Hl as [[l' r] [Heq Hin]]. simpl in Heq.
    subst l'. now rewrite (Hp l r Hin).
Qed.

Section FilterFacts.
Variable regex : Type.
Variable re_compile : string -> regex + string.
Variable re_search : regex -> string -> bool.

Lemma lookup_contains_literal (df : DataFrame value) (kw col : string)
    (l : nat) (r : record) :
  NoDup (index df) -> In (l, r) (rows df) ->
  lookup (contains_literal kw (getitem_col df col)) l
  = Some (str_in (upper kw) (upper (astype_str (dict_get r col)))).
Proof.
  intros Hnd Hin. unfold contains_literal, getitem_col. rewrite map_map. simpl.
  apply (lookup_rows (rows df)
           (fun r => str_in (upper kw) (upper (astype_str (dict_get r col)))));
    assumption.
Qed.

Lemma lookup_keyword_columns (df : DataFrame value) (kw : string) (l : nat)
    (r : record) (cols : list (string * dtype)) :
  NoDup (index df) -> In (l, r) (rows df) ->
  forall mask b0,
    lookup mask l = Some b0 ->
    lookup
      (fold_left
         (fun mask col =>
            if is_object (snd col)
            then ior mask (contains_literal kw (getitem_col df (fst col)))
            else mask)
         cols mask) l
    = Some (b0 || existsb
                    (fun c => is_object (snd c) &&
                              str_in (upper kw)
                                (upper (astype_str (dict_get r (fst c)))))
                    cols).
Proof.
  intros Hnd Hin. induction cols as [|c cols IH]; intros mask b0 Hb0; simpl.
  - now rewrite orb_false_r.
  - destruct (is_object (snd c)); simpl.
    + erewrite IH.
      * now rewrite orb_assoc.
      * rewrite lookup_ior, Hb0.
        now rewrite (lookup_contains_literal df kw (fst c) l r Hnd Hin).
    + now apply IH.
Qed.

Lemma lookup_keyword_mask (df : DataFrame value) (keywords : list string)
    (l : nat) (r : record) :
  range_indexed df -> In (l, r) (rows df) ->
  lookup (keyword_mask df keywords) l
  = Some (keyword_match keywords (columns df) r).
Proof.
  intros Hri Hin.
  assert (Hnd : NoDup (index df)) by (rewrite Hri; apply seq_NoDup).
  assert (Hl : l < len df).
  { assert (Hl : In l (index df)).
    { unfold index. apply in_map_iff. now exists (l, r). }
    rewrite Hri in Hl. apply in_seq in Hl. lia. }
  unfold keyword_mask, keyword_match.
  pose proof (lookup_new_mask (len df) l Hl) as H0.
  revert H0. generalize (new_mask (len df)) as mask.
  replace (existsb _ keywords) with (false || existsb
    (fun kw => truthy kw &&
       existsb (fun c => is_object (snd c) &&
                  str_in (upper kw) (upper (astype_str (dict_get r (fst c)))))
         (columns df)) keywords) by reflexivity.
  generalize false as b0.
  induction keywords as [|kw kws IH]; intros b0 mask Hb0; simpl.
  - now rewrite orb_false_r.
  - destruct (truthy kw); simpl.
    + erewrite IH.
      * now rewrite orb_assoc.
      * now apply lookup_keyword_columns.
    + now apply IH.
Qed.

(** The keyword stage on a frame with the default index: it does not raise
    and keeps the rows that meet the keyword predicate. *)
Lemma keyword_stage_keeps (df : DataFrame value) (config : Config) :
  range_indexed df ->
  keyword_stage df config
  = Ok (if truthy (strip (get_str (keyword_filter config)))
        then keep_rows (keyword_match (keywords_of config) (columns df)) df
        else df).
Proof.
  intros Hri. unfold keyword_stage.
  destruct (truthy (strip (get_str (keyword_filter config)))); [|reflexivity].
  apply getitem_bool_pointwise. intros l r Hin.
  now apply lookup_keyword_mask.
Qed.

Lemma regex_mask_raised (df : DataFrame value) (pat : string) (e : exn)
    (cols : list (string * dtype)) :
  fold_left
    (fun acc col =>
       match acc with
       | Raise e => Raise e
       | Ok mask =>
           if is_object (snd col) then
             match contains_regex regex re_compile re_search pat
                     (getitem_col df (fst col)) with
             | Ok other => Ok (ior mask other)
             | Raise e => Raise e
             end
           else Ok mask
       end)
    cols (Raise e) = Raise e.
Proof. induction cols as [|c cols IH]; simpl; [reflexivity | exact IH]. Qed.

(** A pattern that does not compile makes the first object column raise. *)
Lemma regex_mask_invalid (df : DataFrame value) (pat msg : string) :
  re_compile pat = inr msg ->
  has_object_column df = true ->
  regex_mask regex re_compile re_search df pat = Raise (re_error msg).
Proof.
  intros Hc. unfold regex_mask, has_object_column.
  generalize (new_mask (len df)) as mask.
  induction (columns df) as [|c cols IH]; intros mask Hobj; simpl in *.
  - discriminate.
  - destruct (is_object (snd c)); simpl in *.
    + assert (Hraise : forall ser,
                contains_regex regex re_compile re_search pat ser
                = Raise (re_error msg)).
      { intros ser. unfold contains_regex. now rewrite Hc. }
      rewrite Hraise. apply regex_mask_raised.
    + now apply IH.
Qed.

Lemma object_column_not_empty (all_data : list record) :
  has_object_column (DataFrame_of all_data) = true ->
  empty (DataFrame_of all_data) = false.
Proof.
  unfold has_object_column, empty, len, DataFrame_of, from_records. simpl.
  destruct all_data as [|r data]; [discriminate|].
  intros H. destruct (map _ (union_keys (r :: data))); [discriminate|].
  unfold enumerate. reflexivity.
Qed.

Lemma keep_rows_columns (p : record -> bool) (df : DataFrame value) :
  columns (keep_rows p df) = columns df.
Proof. reflexivity. Qed.

(** C7, as the code has it.  On a table with at least one string-typed
    (object) column, which makes it non-empty, a regex_filter whose stripped
    text is non-empty and does not compile does not make filtering raise: one
    line, Invalid regex pattern: followed by the message of re, is printed,
    and the table returned is the one the keyword stage leaves, no row removed
    by the regex step. *)
Theorem invalid_regex_is_reported_and_skipped (all_data : list record)
    (config : Config) (msg : string) :
  has_object_column (DataFrame_of all_data) = true ->
  truthy (pattern_of config) = true ->
  re_compile (pattern_of config) = inr msg ->
  apply_filters regex re_compile re_search (DataFrame_of all_data) config
  = ([("Invalid regex pattern: " ++ msg)%string],
     Ok (if truthy (strip (get_str (keyword_filter config)))
         then keep_rows
                (keyword_match (keywords_of config)
                   (columns (DataFrame_of all_data)))
                (DataFrame_of all_data)
         else DataFrame_of all_data)).
Proof.
  intros Hobj Hpat Hc. unfold apply_filters.
  rewrite (object_column_not_empty all_data Hobj).
  rewrite keyword_stage_keeps by apply DataFrame_of_range_indexed.
  unfold regex_stage. fold (pattern_of config). rewrite Hpat.
  rewrite (regex_mask_invalid _ _ msg Hc); [reflexivity|].
  destruct (truthy (strip (get_str (keyword_filter config)))); exact Hobj.
Qed.

(** C8.  With keyword_filter and regex_filter both the empty string, the
    filter stage prints nothing and returns the very table it was given, row
    for row and column for column. *)
Theorem apply_filters_empty_predicates_identity (df : DataFrame value)
    (config : Config) :
  keyword_filter config = Some "" ->
  regex_filter config = Some "" ->
  apply_filters regex re_compile re_search df config = ([], Ok df).
Proof.
  intros Hk Hr. unfold apply_filters, keyword_stage, regex_stage.
  rewrite Hk, Hr. simpl. now destruct (empty df).
Qed.

(** C3, as the code has it.  On a non-empty table, a keyword_filter whose
    comma-separated segments all strip to the empty string excludes every row
    when the filter itself strips to a non-empty text (a lone comma, say): the
    mask stays all False.  The keyword step is skipped, no row excluded, only
    when the whole filter strips to the empty string.  With no regex_filter
    that is the result of the filter stage. *)
Theorem keyword_filter_of_empty_segments (all_data : list record)
    (config : Config) :
  empty (DataFrame_of all_data) = false ->
  forallb (fun kw => negb (truthy kw)) (keywords_of config) = true ->
  truthy (pattern_of config) = false ->
  apply_filters regex re_compile re_search (DataFrame_of all_data) config
  = ([], Ok (if truthy (strip (get_str (keyword_filter config)))
             then mkDataFrame (columns (DataFrame_of all_data)) []
             else DataFrame_of all_data)).
Proof.
  intros Hne Hseg Hpat. unfold apply_filters. rewrite Hne.
  rewrite keyword_stage_keeps by apply DataFrame_of_range_indexed.
  unfold regex_stage. fold (pattern_of config). rewrite Hpat.
  destruct (truthy (strip (get_str (keyword_filter config)))); [|reflexivity].
  f_equal. f_equal. unfold keep_rows. f_equal.
  assert (Hno : forall cols r, keyword_match (keywords_of config) cols r = false).
  { intros cols r. unfold keyword_match.
    induction (keywords_of config) as [|kw kws IH]; simpl in *; [reflexivity|].
    apply andb_true_iff in Hseg. destruct Hseg as [Hkw Hkws].
    destruct (truthy kw); [discriminate|]. simpl. now apply IH. }
  induction (rows (DataFrame_of all_data)) as [|lr rws IH]; simpl; [reflexivity|].
  now rewrite Hno.
Qed.

(** *** Both filters *)

Lemma regex_mask_compiled (df : DataFrame value) (pat : string) (rx : regex) :
  re_compile pat = inl rx ->
  regex_mask regex re_compile re_search df pat
  = Ok (fold_left
          (fun mask col =>
             if is_object (snd col)
             then ior mask
                    (map (fun lc => (fst lc, re_search rx (astype_str (snd lc))))
                       (getitem_col df (fst col)))
             else mask)
          (columns df) (new_mask (len df))).
Proof.
  intros Hc. unfold regex_mask.
  assert (Hok : forall ser,
            contains_regex regex re_compile re_search pat ser
            = Ok (map (fun lc => (fst lc, re_search rx (astype_str (snd lc)))) ser)).
  { intros ser. unfold contains_regex. now rewrite Hc. }
  generalize (new_mask (len df)) as mask.
  induction (columns df) as [|c cols IH]; intros mask; simpl; [reflexivity|].
  destruct (is_object (snd c)); [rewrite Hok|]; apply IH.
Qed.

Lemma lookup_regex_columns (df : DataFrame value) (rx : regex) (l : nat)
    (r : record) (cols : list (string * dtype)) :
  NoDup (index df) -> In (l, r) (rows df) ->
  forall mask b0,
    lookup mask l = Some b0 ->
    lookup
      (fold_left
         (fun mask col =>
            if is_object (snd col)
            then ior mask
                   (map (fun lc => (fst lc, re_search rx (astype_str (snd lc))))
                      (getitem_col df (fst col)))
            else mask)
         cols mask) l
    = Some (b0 || regex_match re_search rx cols r).
Proof.
  intros Hnd Hin. unfold regex_match.
  induction cols as [|c cols IH]; intros mask b0 Hb0; simpl.
  - now rewrite orb_false_r.
  - destruct (is_object (snd c)); simpl.
    + erewrite IH.
      * now rewrite orb_assoc.
      * rewrite lookup_ior, Hb0. unfold getitem_col. rewrite map_map. simpl.
        now rewrite (lookup_rows (rows df)
                       (fun r => re_search rx (astype_str (dict_get r (fst c))))
                       l r Hnd Hin).
    + now apply IH.
Qed.

Lemma lookup_regex_columns_out (df : DataFrame value) (rx : regex) (l : nat)
    (cols : list (string * dtype)) :
  forall mask,
    lookup mask l = None ->
    lookup
      (fold_left
         (fun mask col =>
            if is_object (snd col)
            then ior mask
                   (map (fun lc => (fst lc, re_search rx (astype_str (snd lc))))
                      (getitem_col df (fst col)))
            else mask)
         cols mask) l
    = None.
Proof.
  induction cols as [|c cols IH]; intros mask Hm; simpl; [exact Hm|].
  destruct (is_object (snd c)); apply IH; [|exact Hm].
  now rewrite lookup_ior, Hm.
Qed.


(** The regex stage with a pattern that compiles, on a frame whose labels
    are distinct: the rows that meet the regex predicate when every label is
    below the number of rows, IndexingError as soon as one is not. *)
Lemma regex_stage_compiled (df : DataFrame value) (config : Config) (rx : regex) :
  NoDup (index df) ->
  truthy (pattern_of config) = true ->
  re_compile (pattern_of config) = inl rx ->
  regex_stage regex re_compile re_search df config
  = if forallb (fun l => l <? len df) (index df)
    then ([], Ok (keep_rows (regex_match re_search rx (columns df)) df))
    else ([], Raise IndexingError).
Proof.
  intros Hnd Hpat Hc. unfold regex_stage. fold (pattern_of config).
  rewrite Hpat, (regex_mask_compiled df _ rx Hc).
  destruct (forallb (fun l => l <? len df) (index df)) eqn:Hall.
  - rewrite (getitem_bool_pointwise df _ (regex_match re_search rx (columns df)));
      [reflexivity|].
    intros l r Hin.
    assert (Hl : l < len df).
    { rewrite forallb_forall in Hall. apply Nat.ltb_lt. apply Hall.
      unfold index. apply in_map_iff. now exists (l, r). }
    rewrite (lookup_regex_columns df rx l r (columns df) Hnd Hin
               (new_mask (len df)) false (lookup_new_mask _ _ Hl)).
    reflexivity.
  - unfold getitem_bool.
    replace (forallb _ (index df)) with false; [reflexivity|].
    symmetry. apply not_true_is_false. intros Hlk.
    rewrite forallb_forall in Hlk.
    assert (Hcontra : forallb (fun l => l <? len df) (index df) = true).
    { apply forallb_forall. intros l Hl. apply Nat.ltb_lt.
      destruct (Nat.lt_ge_cases l (len df)) as [Hlt|Hge]; [exact Hlt|].
      specialize (Hlk l Hl).
      rewrite (lookup_regex_columns_out df rx l (columns df)
                 (new_mask (len df)) (lookup_new_mask_out _ _ Hge)) in Hlk.
      discriminate. }
    rewrite Hcontra in Hall. discriminate.
Qed.


End FilterFacts.

(** ** The filter stage on concrete tables *)

Lemma invalid_regex_is_reported_and_skipped_witness :
  apply_filters regex re_compile re_search (DataFrame_of apple_pear) (cfg "" "(")
  = ([("Invalid regex pattern: " ++ unbalanced_msg)%string],
     Ok (if truthy (strip (get_str (keyword_filter (cfg "" "("))))
         then keep_rows
                (keyword_match (keywords_of (cfg "" "("))
                   (columns (DataFrame_of apple_pear)))
                (DataFrame_of apple_pear)
         else DataFrame_of apple_pear)).
Proof.
  apply (invalid_regex_is_reported_and_skipped regex re_compile re_search
           apple_pear (cfg "" "(") unbalanced_msg); reflexivity.
Defined.

(** C7, as stated, fails.  On the empty table the filter stage returns
    before the pattern is compiled: the invalid pattern is not reported.  On
    a table without a string-typed column the pattern is never compiled
    either, nothing is reported, and the regex step removes every row. *)
Lemma invalid_regex_unreported :
  re_compile "(" = inr unbalanced_msg
  /\ apply_filters regex re_compile re_search (DataFrame_of []) (cfg "" "(")
     = ([], Ok (DataFrame_of []))
  /\ apply_filters regex re_compile re_search (DataFrame_of numbers_only)
       (cfg "" "(")
     = ([], Ok (mkDataFrame [("n", int64)] [])).
Proof. repeat split. Qed.

Lemma apply_filters_empty_predicates_identity_witness :
  apply_filters regex re_compile re_search (DataFrame_of apple_banana) (cfg "" "")
  = ([], Ok (DataFrame_of apple_banana)).
Proof.
  apply (apply_filters_empty_predicates_identity regex re_compile re_search
           (DataFrame_of apple_banana) (cfg "" "")); reflexivity.
Defined.

Lemma keyword_filter_of_empty_segments_witness :
  apply_filters regex re_compile re_search (DataFrame_of apple_banana) (cfg "," "")
  = ([], Ok (if truthy (strip (get_str (keyword_filter (cfg "," ""))))
             then mkDataFrame (columns (DataFrame_of apple_banana)) []
             else DataFrame_of apple_banana)).
Proof.
  apply (keyword_filter_of_empty_segments regex re_compile re_search
           apple_banana (cfg "," "")); reflexivity.
Defined.

(** C3, as stated, fails.  The segments of a lone comma, and of a comma
    between blanks, all strip to the empty string, the table has two rows, and
    the keyword filter is not skipped: it excludes both rows. *)
Lemma lone_comma_excludes_every_row :
  keywords_of (cfg "," "") = [""; ""]
  /\ keywords_of (cfg " , " "") = [""; ""]
  /\ len (DataFrame_of apple_banana) = 2
  /\ apply_filters regex re_compile re_search (DataFrame_of apple_banana)
       (cfg "," "")
     = ([], Ok (mkDataFrame [("x", object)] []))
  /\ apply_filters regex re_compile re_search (DataFrame_of apple_banana)
       (cfg " , " "")
     = ([], Ok (mkDataFrame [("x", object)] [])).
Proof. repeat split. Qed.

(** C2 on the code.  Rows x=Apple and x=Banana, keyword_filter banana,
    regex_filter ^B: the Banana row meets the keyword predicate and the regex
    predicate, the pattern compiles, and the filter stage raises
    IndexingError.  The keyword step leaves the row labelled 1; the regex mask
    is labelled 0 only, so indexing the frame with it cannot be aligned. *)
Theorem keyword_then_regex_raises_IndexingError :
  keyword_match (keywords_of (cfg "banana" "^B")) [("x", object)]
    [("x", VStr "Banana")] = true
  /\ re_compile (pattern_of (cfg "banana" "^B")) = inl (true, "B")
  /\ regex_match re_search (true, "B") [("x", object)] [("x", VStr "Banana")]
     = true
  /\ keyword_stage (DataFrame_of apple_banana) (cfg "banana" "^B")
     = Ok (mkDataFrame [("x", object)] [(1, [("x", VStr "Banana")])])
  /\ apply_filters regex re_compile re_search (DataFrame_of apple_banana)
       (cfg "banana" "^B")
     = ([], Raise IndexingError).
Proof. repeat split. Qed.

(** C5 on the code.  With rows x=Apple and x=Banana and keyword_filter apple
    the first row is the one kept.  With rows x=Apple and y=Pear and
    keyword_filter nan, neither Apple nor Pear holds the keyword, yet both
    rows are kept: each row lacks one of the two columns, and the missing
    cell is searched as the text nan. *)
Theorem keyword_filter_matches_missing_cells :
  apply_filters regex re_compile re_search (DataFrame_of apple_banana)
    (cfg "apple" "")
  = ([], Ok (mkDataFrame [("x", object)] [(0, [("x", VStr "Apple")])]))
  /\ str_in (upper "nan") (upper "Apple") = false
  /\ str_in (upper "nan") (upper "Pear") = false
  /\ apply_filters regex re_compile re_search (DataFrame_of apple_pear)
       (cfg "nan" "")
     = ([], Ok (DataFrame_of apple_pear)).
Proof. repeat split. Qed.

(** ** The JSON normalizer and the fetch *)
Import APIHunter.



(** C4 on the code.  A reply with status 200 whose body does not decode is
    answered exactly as a transport failure with the same message: the first
    except clause takes it, the line API request failed is printed and the
    exception raised reads Failed to fetch API; the clause that would raise
    Response is not valid JSON is not reached.  Neither failure returns a
    table. *)
Theorem undecodable_body_reported_as_fetch_failure (url msg : string) :
  fetch_api_data url (Response 200 "OK" (inr msg))
  = ([("API request failed: " ++ msg)%string],
     Raise (Exception ("Failed to fetch API: " ++ msg)%string))
  /\ fetch_api_data url (Response 200 "OK" (inr msg))
     = fetch_api_data url (TransportFailure msg).
Proof. split; reflexivity. Qed.

(** ** Every extracted record carries its type *)

Lemma mem_string_In (k : string) (l : list string) :
  mem_string k l = true <-> In k l.
Proof.
  unfold mem_string. rewrite existsb_exists. split.
  - intros [x [Hin Heq]]. apply String.eqb_eq in Heq. now subst.
  - intros Hin. exists k. split; [exact Hin | apply String.eqb_refl].
Qed.

Lemma add_keys_keeps (ks cols : list string) (k : string) :
  In k cols ->
  In k (fold_left (fun cols k => if mem_string k cols then cols else cols ++ [k])
          ks cols).
Proof.
  revert cols. induction ks as [|k' ks IH]; intros cols Hin; simpl; [exact Hin|].
  apply IH. destruct (mem_string k' cols); [exact Hin|].
  apply in_or_app. now left.
Qed.

Lemma add_keys_adds (ks cols : list string) (k : string) :
  In k ks ->
  In k (fold_left (fun cols k => if mem_string k cols then cols else cols ++ [k])
          ks cols).
Proof.
  revert cols. induction ks as [|k' ks IH]; intros cols Hin; simpl; [contradiction|].
  destruct Hin as [->|Hin]; [|now apply IH].
  apply add_keys_keeps. destruct (mem_string k cols) eqn:Hm.
  - now apply mem_string_In.
  - apply in_or_app. right. now left.
Qed.

Lemma union_fold_keeps {V : Type} (data : list (dict V)) (k : string) :
  forall cols,
    In k cols ->
    In k (fold_left
            (fun cols r =>
               fold_left
                 (fun cols k => if mem_string k cols then cols else cols ++ [k])
                 (dict_keys r) cols)
            data cols).
Proof.
  induction data as [|r' data IH]; intros cols Hin; simpl; [exact Hin|].
  apply IH. now apply add_keys_keeps.
Qed.

Lemma union_fold_has {V : Type} (data : list (dict V)) (r : dict V) (k : string) :
  forall cols,
    In r data -> In k (dict_keys r) ->
    In k (fold_left
            (fun cols r =>
               fold_left
                 (fun cols k => if mem_string k cols then cols else cols ++ [k])
                 (dict_keys r) cols)
            data cols).
Proof.
  induction data as [|r' data IH]; intros cols Hr Hk; simpl; [contradiction|].
  destruct Hr as [->|Hr]; [|now apply IH].
  apply union_fold_keeps. now apply add_keys_adds.
Qed.

Lemma union_keys_has {V : Type} (data : list (dict V)) (r : dict V) (k : string) :
  In r data -> In k (dict_keys r) -> In k (union_keys data).
Proof. unfold union_keys. apply union_fold_has. Qed.

Lemma dict_get_key {V : Type} (d : dict V) (k : string) (v : V) :
  dict_get d k = Some v -> In k (dict_keys d).
Proof.
  induction d as [|[k0 v0] d IH]; simpl; [discriminate|].
  destruct (String.eqb_spec k0 k) as [->|Hne]; [now left | right; now apply IH].
Qed.

(** A table of records that each carry a string under type has an object
    column as soon as it has a row. *)
Lemma typed_records_object_column (all_data : list record) :
  all_data <> [] ->
  (forall r, In r all_data -> typed r) ->
  has_object_column (DataFrame_of all_data) = true.
Proof.
  intros Hne Hty. destruct all_data as [|r0 data]; [contradiction|].
  destruct (Hty r0 (or_introl eq_refl)) as [s0 Hs0].
  unfold has_object_column, DataFrame_of, from_records. simpl columns.
  apply existsb_exists. exists ("type",
          HTMLScraper.infer_dtype (map (fun r => dict_get r "type") (r0 :: data))).
  split.
  - apply in_map_iff. exists "type". split; [reflexivity|].
    apply (union_keys_has (r0 :: data) r0); [now left|].
    now apply (dict_get_key r0 "type" (VStr s0)).
  - simpl. unfold HTMLScraper.infer_dtype. simpl. rewrite Hs0. reflexivity.
Qed.

Lemma typed_dict_set (d : record) (k t : string) :
  typed d -> typed (dict_set d k (VStr t)).
Proof.
  intros [s Hs]. unfold typed. destruct (String.eqb_spec k "type") as [->|Hne].
  - exists t. apply dict_get_set_same.
  - exists s. now rewrite dict_get_set_other.
Qed.

Lemma typed_row_data (headers : list string) (i j : nat) (cells : list node) :
  typed (row_data headers i j cells).
Proof.
  unfold row_data.
  assert (H0 : typed (row_base i j)) by (now exists "table").
  revert H0. generalize (row_base i j) as d.
  induction (enumerate cells) as [|ic l IH]; intros d Hd; simpl; [exact Hd|].
  apply IH. now apply typed_dict_set.
Qed.

Lemma extract_links_emits (soup : node) :
  extract_links soup
  = flat_map
      (fun il => [[("type", VStr "link"); ("index", vnat (fst il));
                   ("text", VStr (get_text (snd il)));
                   ("url", VStr (get_attr "href" (snd il)));
                   ("title", VStr (get_attr "title" (snd il)))]])
      (enumerate (find_all_with_attr "a" "href" soup)).
Proof. unfold extract_links. now rewrite fold_left_emit. Qed.

Lemma extract_images_emits (soup : node) :
  extract_images soup
  = flat_map
      (fun ii => [[("type", VStr "image"); ("index", vnat (fst ii));
                   ("src", VStr (get_attr "src" (snd ii)));
                   ("alt", VStr (get_attr "alt" (snd ii)));
                   ("title", VStr (get_attr "title" (snd ii)))]])
      (enumerate (find_all_with_attr "img" "src" soup)).
Proof. unfold extract_images. now rewrite fold_left_emit. Qed.

(** X2.  Whatever the flags, each record [scrape] collects holds a string
    under type, so a non-empty table of [scrape] has an object column. *)
Lemma collect_typed (soup : node) (config : Config) (r : record) :
  In r (collect soup config) -> typed r.
Proof.
  unfold collect. rewrite !in_app_iff. intros [[[H|H]|H]|H].
  - destruct (tables config); [|contradiction].
    rewrite extract_tables_emits in H.
    apply in_flat_map in H. destruct H as [[i t] [_ H]].
    apply in_flat_map in H. destruct H as [[j row] [_ H]].
    apply In_emit_row in H. destruct H as [_ ->]. apply typed_row_data.
  - destruct (text config); [|contradiction].
    rewrite extract_text_emits in H.
    apply in_flat_map in H. destruct H as [[tag keep] [_ H]].
    unfold tag_records in H. apply in_flat_map in H.
    destruct H as [[i e] [_ H]]. apply In_emit_text in H.
    destruct H as [_ ->]. now exists "text".
  - destruct (links config); [|contradiction].
    rewrite extract_links_emits in H.
    apply in_flat_map in H. destruct H as [il [_ [<-|[]]]]. now exists "link".
  - destruct (images config); [|contradiction].
    rewrite extract_images_emits in H.
    apply in_flat_map in H. destruct H as [ii [_ [<-|[]]]]. now exists "image".
Qed.


Lemma collect_typed_witness : typed name_age_expected.
Proof.
  apply (collect_typed name_age_doc (cfg "" "") name_age_expected).
  right. left. reflexivity.
Defined.

(** * Further properties of the code *)

Import Anchors Samples.

(** ** Links and images *)

Lemma nth_error_combine_seq {A : Type} (l : list A) :
  forall s k x,
    nth_error l k = Some x ->
    nth_error (combine (seq s (List.length l)) l) k = Some (s + k, x).
Proof.
  induction l as [|y l IH]; intros s k x Hk.
  - destruct k; discriminate.
  - destruct k as [|k]; simpl in *.
    + inversion Hk. now rewrite Nat.add_0_r.
    + rewrite (IH (S s) k x Hk). now rewrite Nat.add_succ_r.
Qed.

Lemma nth_error_enumerate {A : Type} (l : list A) (k : nat) (x : A) :
  nth_error l k = Some x -> nth_error (enumerate l) k = Some (k, x).
Proof. intros H. apply (nth_error_combine_seq l 0 k x H). Qed.

Lemma length_enumerate {A : Type} (l : list A) :
  List.length (enumerate l) = List.length l.
Proof.
  unfold enumerate. rewrite length_combine, length_seq. apply Nat.min_id.
Qed.

(** A loop that appends one record per element of [enumerate l]. *)
Lemma append_each {A B : Type} (f : nat -> A -> B) (l : list A) :
  fold_left (fun data ix => data ++ [f (fst ix) (snd ix)]) (enumerate l) []
  = map (fun ix => f (fst ix) (snd ix)) (enumerate l).
Proof.
  rewrite (fold_left_emit (fun ix => [f (fst ix) (snd ix)])). simpl.
  induction (enumerate l) as [|ix e IH]; simpl; [reflexivity | now rewrite IH].
Qed.

Lemma nth_error_append_each {A B : Type} (f : nat -> A -> B) (l : list A)
    (k : nat) (x : A) :
  nth_error l k = Some x ->
  nth_error (map (fun ix => f (fst ix) (snd ix)) (enumerate l)) k = Some (f k x).
Proof.
  intros H. rewrite nth_error_map, (nth_error_enumerate l k x H). reflexivity.
Qed.

(** X3.  [extract_links] gives one record per a element that has an href,
    in document order, and the record at position k carries index k: the
    indices of link records run 0, 1, ... without a gap.  The href is taken
    as written and a missing title reads as the empty string; an a element
    without href gives no record. *)
Theorem extract_links_in_document_order (soup : node) :
  List.length (extract_links soup)
  = List.length (find_all_with_attr "a" "href" soup)
  /\ (forall k link,
        nth_error (find_all_with_attr "a" "href" soup) k = Some link ->
        nth_error (extract_links soup) k = Some (link_record k link))
  /\ extract_links link_doc
     = [[("type", VStr "link"); ("index", vnat 0); ("text", VStr "Go");
         ("url", VStr "/x"); ("title", VStr "t")]].
Proof.
  change (extract_links soup)
    with (fold_left (fun data ix => data ++ [link_record (fst ix) (snd ix)])
            (enumerate (find_all_with_attr "a" "href" soup)) []).
  rewrite (append_each link_record (find_all_with_attr "a" "href" soup)).
  split; [now rewrite length_map, length_enumerate|].
  split; [intros k link H; now apply nth_error_append_each | reflexivity].
Qed.

(** X4.  [extract_images] gives one record per img element that has a src,
    in document order, the record at position k carrying index k; alt and
    title read as the empty string when the attribute is missing. *)
Theorem extract_images_in_document_order (soup : node) :
  List.length (extract_images soup)
  = List.length (find_all_with_attr "img" "src" soup)
  /\ (forall k img,
        nth_error (find_all_with_attr "img" "src" soup) k = Some img ->
        nth_error (extract_images soup) k = Some (image_record k img))
  /\ extract_images link_doc
     = [[("type", VStr "image"); ("index", vnat 0); ("src", VStr "p.png");
         ("alt", VStr ""); ("title", VStr "")]].
Proof.
  change (extract_images soup)
    with (fold_left (fun data ix => data ++ [image_record (fst ix) (snd ix)])
            (enumerate (find_all_with_attr "img" "src" soup)) []).
  rewrite (append_each image_record (find_all_with_attr "img" "src" soup)).
  split; [now rewrite length_map, length_enumerate|].
  split; [intros k img H; now apply nth_error_append_each | reflexivity].
Qed.



(** ** The filter stage as a whole *)


Lemma filter_all {A : Type} (l : list A) : filter (fun _ => true) l = l.
Proof. induction l as [|x l IH]; simpl; [reflexivity | now rewrite IH]. Qed.

Lemma getitem_bool_filters (df df' : DataFrame value) (mask : Series bool) :
  getitem_bool df mask = Ok df' ->
  columns df' = columns df
  /\ exists keep : nat * record -> bool, rows df' = filter keep (rows df).
Proof.
  unfold getitem_bool. destruct (forallb _ (index df)); [|discriminate].
  intros H. inversion H. simpl. split; [reflexivity|].
  now exists (fun lr => match lookup mask (fst lr) with
                        | Some b => b
                        | None => false
                        end).
Qed.

Section WholeStage.
Variable regex : Type.
Variable re_compile : string -> regex + string.
Variable re_search : regex -> string -> bool.

Lemma keyword_stage_filters (df df' : DataFrame value) (config : Config) :
  keyword_stage df config = Ok df' ->
  columns df' = columns df
  /\ exists keep : nat * record -> bool, rows df' = filter keep (rows df).
Proof.
  unfold keyword_stage.
  destruct (truthy (strip (get_str (keyword_filter config)))).
  - apply getitem_bool_filters.
  - intros H. inversion H. subst. split; [reflexivity|].
    exists (fun _ => true). now rewrite filter_all.
Qed.

Lemma regex_stage_filters (df df' : DataFrame value) (config : Config)
    (out : list string) :
  regex_stage regex re_compile re_search df config = (out, Ok df') ->
  columns df' = columns df
  /\ exists keep : nat * record -> bool, rows df' = filter keep (rows df).
Proof.
  assert (Hsame : columns df = columns df
                  /\ exists keep : nat * record -> bool,
                       rows df = filter keep (rows df)).
  { split; [reflexivity|]. exists (fun _ => true). now rewrite filter_all. }
  unfold regex_stage.
  destruct (truthy (strip (get_str (regex_filter config)))).
  - destruct (regex_mask regex re_compile re_search df _) as [mask|[|msg]].
    + destruct (getitem_bool df mask) as [df''|[|msg]] eqn:Hg.
      * intros H. inversion H. subst. now apply (getitem_bool_filters df df' mask).
      * discriminate.
      * intros H. inversion H. subst. exact Hsame.
    + discriminate.
    + intros H. inversion H. subst. exact Hsame.
  - intros H. inversion H. subst. exact Hsame.
Qed.


(** X7.  On a non-empty table made from records, with no keyword filter and
    a regex_filter that compiles, the filter stage does not raise, prints
    nothing and keeps exactly the rows in which the pattern is found
    ([search], case ignored) in the text of a cell of some object column; a
    cell the row lacks is searched as the text nan. *)
Theorem regex_filter_alone (all_data : list record) (config : Config)
    (rx : regex) :
  empty (DataFrame_of all_data) = false ->
  truthy (strip (get_str (keyword_filter config))) = false ->
  truthy (pattern_of config) = true ->
  re_compile (pattern_of config) = inl rx ->
  apply_filters regex re_compile re_search (DataFrame_of all_data) config
  = ([], Ok (keep_rows
               (regex_match re_search rx (columns (DataFrame_of all_data)))
               (DataFrame_of all_data))).
Proof.
  intros Hne Hkw Hpat Hc. unfold apply_filters. rewrite Hne.
  rewrite keyword_stage_keeps by apply DataFrame_of_range_indexed.
  rewrite Hkw.
  rewrite (regex_stage_compiled regex re_compile re_search _ config rx);
    [|rewrite (DataFrame_of_range_indexed all_data); apply seq_NoDup
     |exact Hpat|exact Hc].
  replace (forallb _ (index (DataFrame_of all_data))) with true; [reflexivity|].
  symmetry. apply forallb_forall. intros l Hl.
  rewrite (DataFrame_of_range_indexed all_data) in Hl.
  apply in_seq in Hl. apply Nat.ltb_lt. lia.
Qed.

(** X8.  On a non-empty table made from records, with no regex filter, the
    filter stage does not raise and prints nothing; with a keyword_filter that
    strips to a non-empty text it keeps exactly the rows in which some
    non-empty keyword occurs, case ignored, in the text of a cell of some
    object column, a missing cell being searched as the text nan. *)
Theorem keyword_filter_alone (all_data : list record) (config : Config) :
  empty (DataFrame_of all_data) = false ->
  truthy (pattern_of config) = false ->
  apply_filters regex re_compile re_search (DataFrame_of all_data) config
  = ([], Ok (if truthy (strip (get_str (keyword_filter config)))
             then keep_rows
                    (keyword_match (keywords_of config)
                       (columns (DataFrame_of all_data)))
                    (DataFrame_of all_data)
             else DataFrame_of all_data)).
Proof.
  intros Hne Hpat. unfold apply_filters. rewrite Hne.
  rewrite keyword_stage_keeps by apply DataFrame_of_range_indexed.
  unfold regex_stage. fold (pattern_of config). now rewrite Hpat.
Qed.

End WholeStage.


Lemma regex_filter_alone_witness :
  apply_filters Examples.regex re_compile re_search (DataFrame_of apple_banana)
    (cfg "" "^B")
  = ([], Ok (keep_rows
               (regex_match re_search (true, "B")
                  (columns (DataFrame_of apple_banana)))
               (DataFrame_of apple_banana))).
Proof.
  apply (regex_filter_alone Examples.regex re_compile re_search apple_banana
           (cfg "" "^B") (true, "B")); reflexivity.
Defined.

Lemma keyword_filter_alone_witness :
  apply_filters Examples.regex re_compile re_search (DataFrame_of apple_banana)
    (cfg "an" "")
  = ([], Ok (if truthy (strip (get_str (keyword_filter (cfg "an" ""))))
             then keep_rows
                    (keyword_match (keywords_of (cfg "an" ""))
                       (columns (DataFrame_of apple_banana)))
                    (DataFrame_of apple_banana)
             else DataFrame_of apple_banana)).
Proof.
  apply (keyword_filter_alone Examples.regex re_compile re_search apple_banana
           (cfg "an" "")); reflexivity.
Defined.

(** ** Duplicate rows and the table [scrape] returns *)
Import Dedup.

Section KeepFirst.
Context {A : Type}.
Variable same : A -> A -> bool.

(** The step of the loop that keeps the first of the rows that are the same. *)
Lemma keep_first_shape (l : list A) :
  forall acc,
    exists k,
      fold_left
        (fun kept x => if existsb (fun y => same y x) kept then kept
                       else kept ++ [x]) l acc
      = acc ++ k
      /\ all_new same acc k = true
      /\ (forall x, In x k -> In x l).
Proof.
  induction l as [|x l IH]; intros acc; simpl.
  - exists []. rewrite app_nil_r. repeat split. intros x [].
  - destruct (existsb (fun y => same y x) acc) eqn:Hdup.
    + destruct (IH acc) as (k & Hk & Hnew & Hin).
      exists k. repeat split; auto.
    + destruct (IH (acc ++ [x])) as (k & Hk & Hnew & Hin).
      exists (x :: k). rewrite Hk, <- app_assoc. simpl. rewrite Hdup. simpl.
      repeat split; [exact Hnew|]. intros y [->|Hy]; auto.
Qed.

Lemma keep_first_fixed (l : list A) :
  forall acc,
    all_new same acc l = true ->
    fold_left
      (fun kept x => if existsb (fun y => same y x) kept then kept
                     else kept ++ [x]) l acc
    = acc ++ l.
Proof.
  induction l as [|x l IH]; intros acc Hnew; simpl in *.
  - now rewrite app_nil_r.
  - apply andb_true_iff in Hnew. destruct Hnew as [Hx Hl].
    apply negb_true_iff in Hx. rewrite Hx.
    rewrite (IH _ Hl). now rewrite <- app_assoc.
Qed.

Lemma keep_first_covers (l : list A) :
  forall acc x,
    In x l ->
    exists y,
      In y (fold_left
              (fun kept x => if existsb (fun y => same y x) kept then kept
                             else kept ++ [x]) l acc)
      /\ (y = x \/ same y x = true).
Proof.
  induction l as [|z l IH]; intros acc x Hin; simpl in *; [contradiction|].
  destruct Hin as [->|Hin]; [|now apply IH].
  destruct (existsb (fun y => same y x) acc) eqn:Hdup.
  - apply existsb_exists in Hdup. destruct Hdup as (y & Hy & Hsame).
    exists y. split; [|now right].
    destruct (keep_first_shape l acc) as (k & -> & _). apply in_or_app. now left.
  - exists x. split; [|now left].
    destruct (keep_first_shape l (acc ++ [x])) as (k & -> & _).
    apply in_or_app. left. apply in_or_app. right. now left.
Qed.

End KeepFirst.

(** X9.  [drop_duplicates], the step [scrape] runs when remove_duplicates is
    set, keeps the columns, returns only rows of the table, returns no row
    that is the same on every column as a row returned before it, drops a
    row only when a returned row is the same on every column, and changes
    nothing when run a second time. *)
Theorem drop_duplicates_keeps_first {V : Type}
    (eqb : option V -> option V -> bool) (df : DataFrame V) :
  columns (drop_duplicates eqb df) = columns df
  /\ (forall lr, In lr (rows (drop_duplicates eqb df)) -> In lr (rows df))
  /\ all_new (fun k lr => row_eqb eqb (columns df) (snd k) (snd lr)) []
       (rows (drop_duplicates eqb df)) = true
  /\ (forall lr, In lr (rows df) ->
        exists kept,
          In kept (rows (drop_duplicates eqb df))
          /\ (kept = lr \/ row_eqb eqb (columns df) (snd kept) (snd lr) = true))
  /\ drop_duplicates eqb (drop_duplicates eqb df) = drop_duplicates eqb df.
Proof.
  unfold drop_duplicates. simpl.
  destruct (keep_first_shape
              (fun k lr => row_eqb eqb (columns df) (snd k) (snd lr))
              (rows df) []) as (k & Hk & Hnew & Hin).
  simpl in Hk.
  split; [reflexivity|]. split; [now rewrite Hk|].
  split; [now rewrite Hk|].
  split.
  - intros lr Hlr.
    apply (keep_first_covers
             (fun k lr => row_eqb eqb (columns df) (snd k) (snd lr))
             (rows df) [] lr Hlr).
  - f_equal. rewrite Hk.
    apply (keep_first_fixed
             (fun k lr => row_eqb eqb (columns df) (snd k) (snd lr)) k [] Hnew).
Qed.

Lemma drop_duplicates_rows_subset {V : Type}
    (eqb : option V -> option V -> bool) (df : DataFrame V) (lr : nat * dict V) :
  In lr (rows (drop_duplicates eqb df)) -> In lr (rows df).
Proof.
  unfold drop_duplicates. simpl.
  destruct (keep_first_shape
              (fun k lr => row_eqb eqb (columns df) (snd k) (snd lr))
              (rows df) []) as (k & Hk & _ & Hin).
  simpl in Hk. rewrite Hk. apply Hin.
Qed.

Section Scraped.
Variable regex : Type.
Variable re_compile : string -> regex + string.
Variable re_search : regex -> string -> bool.

Lemma filtered_rows_subset (df df' : DataFrame value) (config : Config)
    (out : list string) (lr : nat * record) :
  apply_filters regex re_compile re_search df config = (out, Ok df') ->
  In lr (rows df') -> In lr (rows df).
Proof.
  unfold apply_filters. destruct (empty df).
  - intros H. inversion H. now subst.
  - destruct (keyword_stage df config) as [df1|e] eqn:Hk; [|discriminate].
    intros Hr Hin. apply keyword_stage_filters in Hk.
    apply (regex_stage_filters regex re_compile re_search) in Hr.
    destruct Hk as [_ [k1 Hr1]]. destruct Hr as [_ [k2 Hr2]].
    rewrite Hr2 in Hin. apply filter_In in Hin. destruct Hin as [Hin _].
    rewrite Hr1 in Hin. apply filter_In in Hin. tauto.
Qed.

(** X10.  When [scrape] returns a table, every row of it is one of the
    records the enabled extractions collected, under the label of its position
    among them (tables first, then text, links, images); when nothing was
    collected, and so whenever the four flags are all off, the table is the
    empty one without columns, nothing is printed and the filters are not
    looked at. *)
Theorem scrape_rows_are_collected (soup : node) (config : Config)
    (out : list string) (df : DataFrame value) :
  scrape regex re_compile re_search soup config = (out, Ok df) ->
  (forall l r, In (l, r) (rows df) -> nth_error (collect soup config) l = Some r)
  /\ (collect soup config = [] -> out = [] /\ df = empty_frame)
  /\ (tables config = false -> text config = false ->
      links config = false -> images config = false ->
      collect soup config = []).
Proof.
  intros Hs. split; [|split].
  - unfold scrape in Hs. destruct (collect soup config) as [|r0 data] eqn:Hc.
    + inversion Hs. subst. intros l r [].
    + destruct (apply_filters regex re_compile re_search
                  (DataFrame_of (r0 :: data)) config) as [out' [df1|e]] eqn:Hf;
        [|discriminate].
      inversion Hs. subst out df. clear Hs.
      intros l r Hin.
      assert (Hin1 : In (l, r) (rows df1)).
      { destruct (remove_duplicates config); [|exact Hin].
        now apply (drop_duplicates_rows_subset value_eqb df1). }
      apply (filtered_rows_subset _ _ _ _ _ Hf) in Hin1.
      now apply In_enumerate in Hin1.
  - intros Hc. unfold scrape in Hs. rewrite Hc in Hs. inversion Hs. now split.
  - intros Ht Hx Hl Hi. unfold collect. now rewrite Ht, Hx, Hl, Hi.
Qed.

End Scraped.

Lemma scrape_rows_are_collected_witness :
  (forall l r,
      In (l, r) (rows (DataFrame_of [name_age_header; name_age_expected])) ->
      nth_error (collect name_age_doc (cfg "" "")) l = Some r)
  /\ (collect name_age_doc (cfg "" "") = [] ->
      @nil string = [] /\ DataFrame_of [name_age_header; name_age_expected] = empty_frame)
  /\ (tables (cfg "" "") = false -> text (cfg "" "") = false ->
      links (cfg "" "") = false -> images (cfg "" "") = false ->
      collect name_age_doc (cfg "" "") = []).
Proof.
  apply (scrape_rows_are_collected Examples.regex re_compile re_search
           name_age_doc (cfg "" "") []
           (DataFrame_of [name_age_header; name_age_expected])).
  reflexivity.
Defined.

(** ** The request interceptor and the captured URLs *)

Lemma prefix_app (p s : string) :
  prefix p s = true <-> exists b, s = (p ++ b)%string.
Proof.
  revert s. induction p as [|c p IH]; intros s; simpl.
  - split; [intros _; now exists s | intros _; now destruct s].
  - destruct s as [|c' s]; simpl.
    + split; [discriminate | intros [b Hb]; discriminate].
    + destruct (ascii_dec c c') as [->|Hne].
      * rewrite IH. split; intros [b Hb]; exists b; [now rewrite Hb|].
        now inversion Hb.
      * split; [discriminate | intros [b Hb]; inversion Hb; now elim Hne].
Qed.

Lemma str_in_app (p s : string) :
  str_in p s = true <-> exists a b, s = (a ++ p ++ b)%string.
Proof.
  induction s as [|c s IH].
  - change (str_in p "") with (prefix p "" || false).
    rewrite orb_false_r, prefix_app. split.
    + intros [b Hb]. now exists "", b.
    + intros (a & b & Hab). destruct a; [|discriminate]. now exists b.
  - change (str_in p (String c s)) with (prefix p (String c s) || str_in p s).
    rewrite orb_true_iff, prefix_app, IH. split.
    + intros [[b Hb] | (a & b & Hab)].
      * now exists "", b.
      * exists (String c a), b. simpl. now rewrite Hab.
    + intros (a & b & Hab). destruct a as [|c' a]; simpl in Hab.
      * left. now exists b.
      * right. inversion Hab. now exists a, b.
Qed.

Lemma lower_upper_char (c : ascii) : lower_char (upper_char c) = lower_char c.
Proof.
  destruct c as [[] [] [] [] [] [] [] []]; reflexivity.
Qed.

Lemma lower_upper (s : string) : lower (upper s) = lower s.
Proof.
  induction s as [|c s IH]; simpl; [reflexivity|].
  now rewrite lower_upper_char, IH.
Qed.

(** X11.  [is_api_request] answers True exactly when the URL, its letters
    A-Z lowered, contains one of the eight indicators /api/, /json, /data/,
    format=json, ajax, /v1/, /v2/, /rest/ as a run of consecutive characters,
    anywhere in it; the letter case of the URL plays no part. *)
Theorem is_api_request_iff (url : string) :
  (is_api_request url = true <->
   exists indicator a b,
     In indicator api_indicators
     /\ lower url = (a ++ indicator ++ b)%string)
  /\ is_api_request (upper url) = is_api_request url.
Proof.
  unfold is_api_request. split.
  - rewrite existsb_exists. split.
    + intros (ind & Hin & Hs). apply str_in_app in Hs.
      destruct Hs as (a & b & Hab). now exists ind, a, b.
    + intros (ind & a & b & Hin & Hab). exists ind. split; [exact Hin|].
      apply str_in_app. now exists a, b.
  - now rewrite lower_upper.
Qed.

Lemma add_api_url_NoDup (st : captured) (url : string) :
  NoDup st -> NoDup (add_api_url st url).
Proof.
  intros Hnd. unfold add_api_url.
  destruct (existsb (String.eqb url) st) eqn:Hin; [exact Hnd|].
  apply NoDup_app; [exact Hnd | repeat constructor; intros [] |].
  intros x Hx [<-|[]].
  assert (H : existsb (String.eqb url) st = true).
  { apply existsb_exists. exists url. split; [exact Hx | apply String.eqb_refl]. }
  rewrite H in Hin. discriminate.
Qed.

Lemma add_api_url_In (st : captured) (url u : string) :
  In u (add_api_url st url) <-> In u st \/ u = url.
Proof.
  unfold add_api_url. destruct (existsb (String.eqb url) st) eqn:Hin.
  - apply existsb_exists in Hin. destruct Hin as (x & Hx & Heq).
    apply String.eqb_eq in Heq. subst x.
    split; [now left | intros [H | ->]; assumption].
  - rewrite in_app_iff. simpl. split.
    + intros [H | [H | []]]; [now left | now right].
    + intros [H | ->]; [now left | right; now left].
Qed.

Lemma intercepted_from (urls : list string) :
  forall st,
    NoDup st ->
    NoDup (fold_left interceptRequest urls st)
    /\ (forall u,
          In u (fold_left interceptRequest urls st) <->
          In u st \/ (In u urls /\ is_api_request u = true)).
Proof.
  induction urls as [|url urls IH]; intros st Hnd; simpl.
  - split; [exact Hnd|]. intros u. tauto.
  - assert (Hnd' : NoDup (interceptRequest st url)).
    { unfold interceptRequest. destruct (is_api_request url);
        [now apply add_api_url_NoDup | exact Hnd]. }
    destruct (IH _ Hnd') as [Hres Hmem]. split; [exact Hres|].
    intros u. rewrite Hmem. unfold interceptRequest.
    destruct (is_api_request url) eqn:Hapi.
    + rewrite add_api_url_In. split.
      * intros [[H | ->] | [H1 H2]]; auto.
      * intros [H | [[<- | H1] H2]]; auto.
    + split.
      * intros [H | [H1 H2]]; auto.
      * intros [H | [[<- | H1] H2]]; auto. rewrite Hapi in H2. discriminate.
Qed.

(** X12.  After any sequence of intercepted requests, starting with nothing
    captured, [get_captured_apis] lists each captured URL once, and a URL is
    listed exactly when it was requested and [is_api_request] accepts it: a
    request that is no API call adds nothing, one that is requested again
    adds nothing either.  [clear_captured_apis] leaves nothing captured. *)
Theorem captured_apis_are_the_api_requests (urls : list string) :
  NoDup (get_captured_apis (fold_left interceptRequest urls no_captured))
  /\ (forall u,
        In u (get_captured_apis (fold_left interceptRequest urls no_captured))
        <-> In u urls /\ is_api_request u = true)
  /\ get_captured_apis
       (clear_captured_apis (fold_left interceptRequest urls no_captured)) = [].
Proof.
  destruct (intercepted_from urls no_captured (NoDup_nil _)) as [Hnd Hmem].
  split; [exact Hnd|]. split; [|reflexivity].
  intros u. unfold get_captured_apis. rewrite Hmem. unfold no_captured. simpl.
  tauto.
Qed.

(** ** What the fetch and the normalizer return *)

(** X13.  [fetch_api_data] returns a table exactly when the reply carries a
    status outside 400..599 and a body that decodes and that the normalizer
    accepts; the table is then the normalizer's and nothing is printed.  In
    every other case it raises and one line was printed before; a status in
    400..599 raises Failed to fetch API with the HTTP error text whatever the
    body holds. *)
Theorem fetch_api_data_returns_iff (url : string) (reply : http_reply) :
  (forall out df,
      fetch_api_data url reply = (out, Ok df) <->
      out = []
      /\ exists status reason data,
           reply = Response status reason (inl data)
           /\ raise_for_status status = false
           /\ json_to_dataframe data = Ok df)
  /\ (forall out e,
        fetch_api_data url reply = (out, Raise e) -> List.length out = 1)
  /\ (forall status reason body,
        raise_for_status status = true ->
        snd (fetch_api_data url (Response status reason body))
        = Raise (Exception ("Failed to fetch API: "
                            ++ http_error_msg status reason url)%string)).
Proof.
  split; [|split].
  - intros out df. unfold fetch_api_data, fetch_body. split.
    + destruct reply as [msg | status reason [data | msg]]; simpl.
      * discriminate.
      * destruct (raise_for_status status) eqn:Hst; simpl; [discriminate|].
        destruct (json_to_dataframe data) as [df0 | e] eqn:Hj.
        -- intros H. inversion H. subst. split; [reflexivity|].
           now exists status, reason, data.
        -- destruct e; simpl; discriminate.
      * destruct (raise_for_status status); simpl; discriminate.
    + intros (-> & status & reason & data & -> & Hst & Hj).
      now rewrite Hst, Hj.
  - intros out e. unfold fetch_api_data.
    destruct (fetch_body url reply) as [df | e0]; [discriminate|].
    destruct (is_RequestException e0); [intros H; now inversion H|].
    destruct (is_json_JSONDecodeError e0); intros H; now inversion H.
  - intros status reason body Hst. unfold fetch_api_data, fetch_body.
    now rewrite Hst.
Qed.

Lemma enumerated_rows {V : Type} (cols : list (string * dtype))
    (rs : list (dict V)) :
  index (mkDataFrame cols (enumerate rs))
  = seq 0 (len (mkDataFrame cols (enumerate rs)))
  /\ len (mkDataFrame cols (enumerate rs)) = List.length rs.
Proof.
  unfold index, len. simpl.
  rewrite map_fst_enumerate, length_enumerate. now split.
Qed.

Lemma frame_of_values_rows (l : list json) :
  index (frame_of_values l) = seq 0 (len (frame_of_values l))
  /\ len (frame_of_values l) = List.length l.
Proof.
  unfold frame_of_values.
  destruct (enumerated_rows
              [("value", APIHunter.infer_dtype (map (fun v => Some (CVal v)) l))]
              (map (fun v => [("value", CVal v)]) l)) as [H1 H2].
  split; [exact H1|]. etransitivity; [exact H2 | apply length_map].
Qed.

Lemma frame_of_dicts_rows (l : list json) (df : DataFrame cell) :
  frame_of_dicts l = Ok df ->
  index df = seq 0 (len df) /\ len df = List.length l.
Proof.
  unfold frame_of_dicts.
  destruct (List.find (fun v => negb (is_dict v)) l); [discriminate|].
  intros H. inversion H as [Hdf]. clear H Hdf. unfold from_records.
  match goal with
  | |- context [mkDataFrame ?cols (enumerate ?rs)] =>
      destruct (enumerated_rows cols rs) as [Hidx Hlen]
  end.
  split; [exact Hidx|]. etransitivity; [exact Hlen | apply length_map].
Qed.

Lemma list_to_dataframe_rows (l : list json) (df : DataFrame cell) :
  list_to_dataframe l = Ok df ->
  index df = seq 0 (len df) /\ len df = List.length l.
Proof.
  unfold list_to_dataframe.
  destruct l as [|v l].
  - intros H. inversion H. apply frame_of_values_rows.
  - destruct v; try (intros H; inversion H; apply frame_of_values_rows).
    apply frame_of_dicts_rows.
Qed.

(** X14.  A table [json_to_dataframe] returns is labelled 0, 1, ... and has
    one row per element of the list it was made from, the value itself or
    the list under the first envelope key, and exactly one row when the value
    is an object without such a key or a scalar; an empty list gives a table
    without rows. *)
Theorem json_to_dataframe_row_count (data : json) (df : DataFrame cell) :
  json_to_dataframe data = Ok df ->
  index df = seq 0 (len df)
  /\ len df = match row_source data with
              | Some l => List.length l
              | None => 1
              end.
Proof.
  unfold json_to_dataframe, row_source.
  destruct data as [| b | z | f | s | l | d];
    try (intros H; inversion H; now split).
  - apply list_to_dataframe_rows.
  - destruct (find_envelope envelope_keys d) as [l|].
    + apply list_to_dataframe_rows.
    + intros H. inversion H. now split.
Qed.

Lemma json_to_dataframe_row_count_witness :
  index (mkDataFrame [("a", int64)]
           [(0, [("a", CVal (JInt 1))]); (1, [("a", CVal (JInt 2))])])
  = seq 0 2
  /\ 2 = match row_source
                 (JDict [("results",
                          JList [JDict [("a", JInt 1)]; JDict [("a", JInt 2)]])])
         with
         | Some l => List.length l
         | None => 1
         end.
Proof.
  apply (json_to_dataframe_row_count
           (JDict [("results", JList [JDict [("a", JInt 1)]; JDict [("a", JInt 2)]])])
           (mkDataFrame [("a", int64)]
              [(0, [("a", CVal (JInt 1))]); (1, [("a", CVal (JInt 2))])])).
  reflexivity.
Defined.

(** X15.  [json_to_dataframe] raises in one case only: the list it makes the
    rows from (the value, or the list under the first envelope key) starts
    with an object and holds an element that is no object; the exception is
    the AttributeError for the first such element.  Scalars, objects without
    an envelope key, and lists that start with a non-object never raise. *)
Theorem json_to_dataframe_raises_iff (data : json) (e : APIHunter.exn) :
  json_to_dataframe data = Raise e <->
  exists d0 rest v,
    row_source data = Some (JDict d0 :: rest)
    /\ List.find (fun v => negb (is_dict v)) rest = Some v
    /\ e = AttributeError
             ("'" ++ type_name v ++ "' object has no attribute 'keys'")%string.
Proof.
  assert (Hl : forall l,
             list_to_dataframe l = Raise e <->
             exists d0 rest v,
               l = JDict d0 :: rest
               /\ List.find (fun v => negb (is_dict v)) rest = Some v
               /\ e = AttributeError
                        ("'" ++ type_name v
                         ++ "' object has no attribute 'keys'")%string).
  { intros l. unfold list_to_dataframe, frame_of_dicts. split.
    - destruct l as [|v l]; [discriminate|].
      destruct v; try discriminate. simpl.
      destruct (List.find _ l) as [v|] eqn:Hf; [|discriminate].
      intros H. inversion H. now exists d, l, v.
    - intros (d0 & rest & v & -> & Hf & ->). simpl. now rewrite Hf. }
  unfold json_to_dataframe, row_source.
  destruct data as [| b | z | f | s | l | d];
    try (split; [discriminate | intros (d0 & rest & v & H & _); discriminate]).
  - rewrite Hl. split; intros (d0 & rest & v & H1 & H2 & H3);
      exists d0, rest, v; repeat split; congruence.
  - destruct (find_envelope envelope_keys d) as [l|].
    + rewrite Hl. split; intros (d0 & rest & v & H1 & H2 & H3);
        exists d0, rest, v; repeat split; congruence.
    + split; [discriminate | intros (d0 & rest & v & H & _); discriminate].
Qed.

(** ** The one row of a flattened object *)

Lemma dict_set_In {V : Type} (d : dict V) (k x : string) (v c : V) :
  In (x, c) (dict_set d k v) -> In (x, c) d \/ (x, c) = (k, v).
Proof.
  induction d as [|[k0 v0] d IH]; simpl.
  - intros [H | []]. right. now symmetry.
  - destruct (String.eqb_spec k0 k) as [->|Hne]; simpl.
    + intros [H | H]; [right; now symmetry | left; now right].
    + intros [H | H]; [left; now left|].
      destruct (IH H) as [H' | H']; [left; now right | now right].
Qed.

Lemma dict_set_keys_In {V : Type} (d : dict V) (k x : string) (v : V) :
  In x (dict_keys (dict_set d k v)) -> In x (dict_keys d) \/ x = k.
Proof.
  induction d as [|[k0 v0] d IH]; simpl.
  - intros [H | []]. right. now symmetry.
  - destruct (String.eqb_spec k0 k) as [->|Hne]; simpl.
    + intros [H | H]; [left; now left | left; now right].
    + intros [H | H]; [left; now left|].
      destruct (IH H) as [H' | H']; [left; now right | now right].
Qed.

Lemma dict_set_NoDup {V : Type} (d : dict V) (k : string) (v : V) :
  NoDup (dict_keys d) -> NoDup (dict_keys (dict_set d k v)).
Proof.
  induction d as [|[k0 v0] d IH]; simpl; intros Hnd.
  - repeat constructor. intros [].
  - apply NoDup_cons_iff in Hnd. destruct Hnd as [Hnotin Hnd].
    destruct (String.eqb_spec k0 k) as [->|Hne]; simpl.
    + now constructor.
    + constructor; [|now apply IH].
      intros Hin. apply dict_set_keys_In in Hin. destruct Hin as [Hin | ->]; auto.
Qed.

Lemma dict_of_items_from {V : Type} (items : list (string * V)) :
  forall d,
    NoDup (dict_keys d) ->
    NoDup (dict_keys (fold_left (fun d kv => dict_set d (fst kv) (snd kv)) items d))
    /\ (forall x c,
          In (x, c) (fold_left (fun d kv => dict_set d (fst kv) (snd kv)) items d) ->
          In (x, c) d \/ In (x, c) items).
Proof.
  induction items as [|[k v] items IH]; intros d Hnd; simpl.
  - split; [exact Hnd | intros x c H; now left].
  - destruct (IH (dict_set d k v) (dict_set_NoDup d k v Hnd)) as [Hres Hin].
    split; [exact Hres|]. intros x c H.
    destruct (Hin x c H) as [H' | H']; [|right; now right].
    apply dict_set_In in H'. destruct H' as [H' | H']; [now left|].
    right. left. now symmetry.
Qed.

Lemma flatten_dict_flat_cells :
  forall (v : json) (parent sep x : string) (c : cell),
    In (x, c) (flatten_dict v parent sep) -> is_flat c = true.
Proof.
  fix IH 1. intros v parent sep x c.
  destruct v as [| b | z | f | s | l | kvs]; simpl; try (intros []).
  intros Hin.
  destruct (dict_of_items_from
              (flat_map
                 (fun kv : string * json =>
                    let '(k, v) := kv in
                    match v with
                    | JDict _ => flatten_dict v (new_key parent sep k) sep
                    | JList l => [(new_key parent sep k, CStrOf l)]
                    | _ => [(new_key parent sep k, CVal v)]
                    end) kvs) [] (NoDup_nil _)) as [_ Hfrom].
  destruct (Hfrom x c Hin) as [[] | Hitems]. clear Hin Hfrom.
  induction kvs as [|[k0 v0] kvs IHkvs]; simpl in Hitems; [contradiction|].
  apply in_app_or in Hitems. destruct Hitems as [Hhead | Htail]; [|now apply IHkvs].
  pose proof (IH v0 (new_key parent sep k0) sep x c) as IHv0.
  destruct v0; try (destruct Hhead as [Heq | []]; inversion Heq; reflexivity).
  now apply IHv0.
Qed.

(** X16.  The one row [flatten_dict] makes of an object never holds an
    object or a list: every cell is a scalar as decoded or the text of a
    list, however deep the object nests; and no column name occurs twice,
    the value flattened last taking the place of an earlier one of the same
    name. *)
Theorem flatten_dict_row_is_flat (v : json) (parent sep : string) :
  (forall x c, In (x, c) (flatten_dict v parent sep) -> is_flat c = true)
  /\ NoDup (dict_keys (flatten_dict v parent sep))
  /\ flatten_dict (JDict [("a_b", JInt 1); ("a", JDict [("b", JInt 2)])]) "" "_"
     = [("a_b", CVal (JInt 2))].
Proof.
  split; [intros x c; apply flatten_dict_flat_cells|]. split; [|reflexivity].
  destruct v; simpl; try constructor.
  apply dict_of_items_from. constructor.
Qed.

(** ** Recipes *)
Import RecipeManager.

(** X17.  A recipe that [save_recipe] wrote is read back by [load_recipe] as
    the configuration that was saved, whatever that configuration is, and
    nothing is printed on the way.  A file in the old format, an object
    without a key config, is returned whole; an object that has a key config
    is never returned whole, the value under that key is.  A missing file,
    an unreadable one and a failed save give None and False. *)
Theorem recipe_round_trip (config : json) :
  save_recipe None config = ([], Holds (recipe_of config), true)
  /\ load_recipe (snd (fst (save_recipe None config))) = (None, config)
  /\ (forall d,
        load_recipe (Holds (JDict d))
        = (None, match dict_get d "config" with
                 | Some inner => inner
                 | None => JDict d
                 end))
  /\ load_recipe Absent = (None, JNull)
  /\ (forall msg, load_recipe (Unreadable msg) = (Some (FileError msg), JNull))
  /\ (forall msg after,
        snd (save_recipe (Some (msg, after)) config) = false
        /\ snd (fst (save_recipe (Some (msg, after)) config)) = after).
Proof.
  split; [reflexivity|]. split; [reflexivity|]. split.
  - intros d. unfold load_recipe, unwrap_recipe.
    now destruct (dict_get d "config").
  - repeat split.
Qed.

Lemma first_missing_none (keys : list string) (config : dict json) :
  first_missing keys config = None <->
  forall key, In key keys -> dict_has config key = true.
Proof.
  induction keys as [|k keys IH]; simpl.
  - split; [intros _ key [] | reflexivity].
  - destruct (dict_has config k) eqn:Hk.
    + rewrite IH. split.
      * intros H key [<-|Hin]; auto.
      * intros H key Hin. apply H. now right.
    + split; [discriminate|]. intros H.
      rewrite (H k (or_introl eq_refl)) in Hk. discriminate.
Qed.

Lemma first_missing_some (keys : list string) (config : dict json) (key : string) :
  first_missing keys config = Some key ->
  exists before after,
    keys = before ++ key :: after
    /\ dict_has config key = false
    /\ forall k, In k before -> dict_has config k = true.
Proof.
  induction keys as [|k keys IH]; simpl; [discriminate|].
  destruct (dict_has config k) eqn:Hk.
  - intros H. destruct (IH H) as (before & after & -> & Hmiss & Hpre).
    exists (k :: before), after. repeat split; [exact Hmiss|].
    intros k' [<-|Hin]; auto.
  - intros H. inversion H. subst. exists [], keys. repeat split; [exact Hk|].
    intros k' [].
Qed.

(** X18.  [validate_recipe] accepts a configuration exactly when it has the
    four keys tables, text, links and images, whatever their values and
    whatever else it holds; when it rejects one, the message names the first
    of the four, in that order, that is missing. *)
Theorem validate_recipe_checks_four_keys (config : dict json) :
  (validate_recipe config = (true, None) <->
   forall key, In key required_keys -> dict_has config key = true)
  /\ (forall msg,
        validate_recipe config = (false, Some msg) ->
        exists before key after,
          required_keys = before ++ key :: after
          /\ msg = ("Missing required key: " ++ key)%string
          /\ dict_has config key = false
          /\ forall k, In k before -> dict_has config k = true)
  /\ (validate_recipe config = (true, None)
      \/ exists msg, validate_recipe config = (false, Some msg)).
Proof.
  unfold validate_recipe.
  destruct (first_missing required_keys config) as [key|] eqn:Hm.
  - split; [|split].
    + split; [discriminate|]. intros H.
      apply first_missing_none in H. rewrite H in Hm. discriminate.
    + intros msg Hmsg. inversion Hmsg.
      destruct (first_missing_some _ _ _ Hm) as (before & after & Hk & Hmiss & Hpre).
      now exists before, key, after.
    + right. now eexists.
  - split; [|split].
    + split; [intros _; now apply first_missing_none | reflexivity].
    + discriminate.
    + now left.
Qed.

(** ** Bookmarks *)
Import BookmarksManager.

Lemma already_bookmarked_well_formed (bs : list bookmark) (url : string) :
  well_formed bs ->
  exists found,
    already_bookmarked bs url = Ok found
    /\ (found = true <-> In url (urls bs)).
Proof.
  induction bs as [|b bs IH]; intros Hwf; simpl.
  - exists false. split; [reflexivity|]. split; [discriminate | intros []].
  - assert (Hb : dict_has b "url" = true) by (apply Hwf; now left).
    unfold dict_has in Hb. unfold urls. simpl.
    destruct (dict_get b "url") as [u|]; [|discriminate].
    destruct (String.eqb_spec u url) as [->|Hne].
    + exists true. split; [reflexivity|]. split; [intros _; now left | reflexivity].
    + destruct IH as (found & Hf & Hiff).
      { intros b' Hb'. apply Hwf. now right. }
      exists found. split; [exact Hf|]. rewrite Hiff. simpl. unfold urls.
      split; [intros H; now right | intros [H | H]; [contradiction | exact H]].
Qed.

Lemma urls_app (bs1 bs2 : list bookmark) :
  urls (bs1 ++ bs2) = urls bs1 ++ urls bs2.
Proof. unfold urls. apply flat_map_app. Qed.

Lemma without_url_well_formed (bs : list bookmark) (url : string) :
  well_formed bs ->
  exists rest,
    without_url bs url = Ok rest
    /\ well_formed rest
    /\ urls rest = filter (fun u => negb (String.eqb u url)) (urls bs)
    /\ (~ In url (urls bs) -> rest = bs).
Proof.
  induction bs as [|b bs IH]; intros Hwf; simpl.
  - exists []. repeat split; auto; intros b [].
  - assert (Hb : dict_has b "url" = true) by (apply Hwf; now left).
    unfold dict_has in Hb.
    destruct IH as (rest & Hr & Hwfr & Hurls & Hsame).
    { intros b' Hb'. apply Hwf. now right. }
    unfold urls in *. simpl.
    destruct (dict_get b "url") as [u|] eqn:Hu; [|discriminate].
    rewrite Hr. simpl.
    destruct (String.eqb_spec u url) as [->|Hne]; simpl.
    + exists rest. repeat split; auto.
      intros Hnot. exfalso. apply Hnot. now left.
    + exists (b :: rest). repeat split.
      * intros b' [<-|Hb']; [unfold dict_has; now rewrite Hu | now apply Hwfr].
      * simpl. rewrite Hu. simpl. now rewrite Hurls.
      * intros Hnot. rewrite Hsame; [reflexivity|].
        intros Hin. apply Hnot. now right.
Qed.

(** X19.  On bookmarks that all have a url, [add_bookmark] never raises.  It
    answers False exactly when the url is already bookmarked, and then changes
    and saves nothing; otherwise it appends {url, title} at the end, hands the
    new list to [save_bookmarks] and answers True.  Urls that were pairwise
    different stay so.  A bookmark without url that is met before the url is
    found raises KeyError. *)
Theorem add_bookmark_keeps_urls_unique (m : manager) (url title : string) :
  well_formed (bookmarks m) ->
  (exists m' added,
      add_bookmark m url title = Ok (m', added)
      /\ (added = false <-> In url (urls (bookmarks m)))
      /\ (added = false -> m' = m)
      /\ (added = true ->
          bookmarks m' = bookmarks m ++ [[("url", url); ("title", title)]]
          /\ last_saved m' = Some (bookmarks m'))
      /\ well_formed (bookmarks m')
      /\ (NoDup (urls (bookmarks m)) -> NoDup (urls (bookmarks m'))))
  /\ add_bookmark (mkManager ([("title", "no url")] :: bookmarks m) None)
       url title
     = Raise (KeyError "url").
Proof.
  intros Hwf. split; [|reflexivity].
  destruct (already_bookmarked_well_formed (bookmarks m) url Hwf)
    as (found & Hf & Hiff).
  unfold add_bookmark. rewrite Hf. destruct found.
  - exists m, false. repeat split; auto; try discriminate.
    + intros _. now apply Hiff.
  - eexists _, true. split; [reflexivity|]. simpl.
    assert (Hnew : ~ In url (urls (bookmarks m))).
    { intros Hin. apply Hiff in Hin. discriminate. }
    repeat split; try discriminate.
    + intros Hin. now elim Hnew.
    + intros b Hb. apply in_app_or in Hb.
      destruct Hb as [Hb | [<- | []]]; [now apply Hwf | reflexivity].
    + intros Hnd. rewrite urls_app. unfold urls at 2. simpl.
      apply NoDup_app; [exact Hnd | repeat constructor; intros [] |].
      intros x Hx [<-|[]]. now elim Hnew.
Qed.

(** X20.  On bookmarks that all have a url, [remove_bookmark] never raises:
    it drops every bookmark of that url, keeps the others in their order,
    and hands the new list to [save_bookmarks]; a url that is not bookmarked
    leaves the list as it is.  Removing a url that was just added to a list
    that did not have it gives the list back. *)
Theorem remove_bookmark_drops_the_url (m : manager) (url title : string) :
  well_formed (bookmarks m) ->
  (exists m',
      remove_bookmark m url = Ok m'
      /\ ~ In url (urls (bookmarks m'))
      /\ urls (bookmarks m')
         = filter (fun u => negb (String.eqb u url)) (urls (bookmarks m))
      /\ last_saved m' = Some (bookmarks m')
      /\ (~ In url (urls (bookmarks m)) -> bookmarks m' = bookmarks m))
  /\ (~ In url (urls (bookmarks m)) ->
      exists m1 m2,
        add_bookmark m url title = Ok (m1, true)
        /\ remove_bookmark m1 url = Ok m2
        /\ bookmarks m2 = bookmarks m).
Proof.
  intros Hwf. split.
  - destruct (without_url_well_formed (bookmarks m) url Hwf)
      as (rest & Hr & _ & Hurls & Hsame).
    unfold remove_bookmark. rewrite Hr. eexists. split; [reflexivity|]. simpl.
    repeat split; auto.
    rewrite Hurls. intros Hin. apply filter_In in Hin.
    destruct Hin as [_ Hneq]. now rewrite String.eqb_refl in Hneq.
  - intros Hnew.
    destruct (already_bookmarked_well_formed (bookmarks m) url Hwf)
      as (found & Hf & Hiff).
    assert (Hfound : found = false).
    { destruct found; [|reflexivity]. elim Hnew. now apply Hiff. }
    subst found.
    unfold add_bookmark. rewrite Hf. eexists. 
    assert (Hwf1 : well_formed (bookmarks m ++ [[("url", url); ("title", title)]])).
    { intros b Hb. apply in_app_or in Hb.
      destruct Hb as [Hb | [<- | []]]; [now apply Hwf | reflexivity]. }
    assert (Hrem : without_url (bookmarks m ++ [[("url", url); ("title", title)]]) url
                   = Ok (bookmarks m)).
    { clear Hf Hiff Hwf1. revert Hwf Hnew. generalize (bookmarks m) as bs.
      induction bs as [|b bs IH]; intros Hwf Hnew; simpl.
      - now rewrite String.eqb_refl.
      - assert (Hb : dict_has b "url" = true) by (apply Hwf; now left).
        unfold dict_has in Hb. unfold urls in Hnew. simpl in Hnew.
        destruct (dict_get b "url") as [u|]; [|discriminate].
        rewrite IH.
        + destruct (String.eqb_spec u url) as [->|Hne]; [|reflexivity].
          elim Hnew. now left.
        + intros b' Hb'. apply Hwf. now right.
        + intros Hin. apply Hnew. apply in_or_app. now right. }
    eexists. split; [reflexivity|]. unfold remove_bookmark. simpl.
    rewrite Hrem. split; reflexivity.
Qed.

Lemma add_bookmark_keeps_urls_unique_witness :
  (exists m' added,
      add_bookmark fresh_manager "https://c.example/" "C" = Ok (m', added)
      /\ (added = false <-> In "https://c.example/" (urls (bookmarks fresh_manager)))
      /\ (added = false -> m' = fresh_manager)
      /\ (added = true ->
          bookmarks m'
          = bookmarks fresh_manager
            ++ [[("url", "https://c.example/"); ("title", "C")]]
          /\ last_saved m' = Some (bookmarks m'))
      /\ well_formed (bookmarks m')
      /\ (NoDup (urls (bookmarks fresh_manager)) -> NoDup (urls (bookmarks m'))))
  /\ add_bookmark
       (mkManager ([("title", "no url")] :: bookmarks fresh_manager) None)
       "https://c.example/" "C"
     = Raise (KeyError "url").
Proof.
  apply (add_bookmark_keeps_urls_unique fresh_manager "https://c.example/" "C").
  intros b [<- | [<- | []]]; reflexivity.
Defined.

Lemma remove_bookmark_drops_the_url_witness :
  (exists m',
      remove_bookmark fresh_manager "https://a.example/" = Ok m'
      /\ ~ In "https://a.example/" (urls (bookmarks m'))
      /\ urls (bookmarks m')
         = filter (fun u => negb (String.eqb u "https://a.example/"))
             (urls (bookmarks fresh_manager))
      /\ last_saved m' = Some (bookmarks m')
      /\ (~ In "https://a.example/" (urls (bookmarks fresh_manager)) ->
          bookmarks m' = bookmarks fresh_manager))
  /\ (~ In "https://a.example/" (urls (bookmarks fresh_manager)) ->
      exists m1 m2,
        add_bookmark fresh_manager "https://a.example/" "A" = Ok (m1, true)
        /\ remove_bookmark m1 "https://a.example/" = Ok m2
        /\ bookmarks m2 = bookmarks fresh_manager).
Proof.
  apply (remove_bookmark_drops_the_url fresh_manager "https://a.example/" "A").
  intros b [<- | [<- | []]]; reflexivity.
Defined.

(** ** Notes *)
Import NotesDialog.

Lemma dict_get_pop_same {V : Type} (d : dict V) (k : string) :
  dict_get (dict_pop d k) k = None.
Proof.
  induction d as [|[k0 v0] d IH]; simpl; [reflexivity|].
  destruct (String.eqb_spec k0 k) as [->|Hne]; [exact IH|].
  simpl. destruct (String.eqb_spec k0 k); [contradiction | exact IH].
Qed.

Lemma dict_get_pop_other {V : Type} (d : dict V) (k k' : string) :
  k' <> k -> dict_get (dict_pop d k) k' = dict_get d k'.
Proof.
  intros Hne. induction d as [|[k0 v0] d IH]; simpl; [reflexivity|].
  destruct (String.eqb_spec k0 k) as [->|Hk0]; simpl.
  - destruct (String.eqb_spec k k'); [now subst | exact IH].
  - now rewrite IH.
Qed.

Lemma not_truthy (s : string) : truthy s = false -> s = "".
Proof. destruct s; [reflexivity | discriminate]. Qed.

(** X21.  After [load_notes] opened a non-empty URL, [save_notes] followed by
    [load_notes] on that URL shows the saved text stripped of surrounding
    white space; the notes of every other URL read as before; the notes
    handed to [save_all_notes] are the ones in memory; and a text that is
    blank removes the entry of the URL instead of storing an empty note.
    Without a current URL [save_notes] changes nothing. *)
Theorem save_notes_then_load_notes (d : dialog) (url text : string) :
  truthy url = true ->
  snd (load_notes (save_notes (fst (load_notes d url)) text) url) = strip text
  /\ (forall other,
        other <> url ->
        snd (load_notes (save_notes (fst (load_notes d url)) text) other)
        = snd (load_notes d other))
  /\ NotesDialog.last_saved (save_notes (fst (load_notes d url)) text)
     = Some (all_notes (save_notes (fst (load_notes d url)) text))
  /\ (truthy (strip text) = false ->
      dict_has (all_notes (save_notes (fst (load_notes d url)) text)) url = false)
  /\ save_notes (mkDialog (all_notes d) None (NotesDialog.last_saved d)) text
     = mkDialog (all_notes d) None (NotesDialog.last_saved d).
Proof.
  intros Hurl. unfold load_notes, save_notes. simpl. rewrite Hurl. simpl.
  destruct (truthy (strip text)) eqn:Ht.
  - repeat split.
    + now rewrite dict_get_set_same.
    + intros other Hne. rewrite dict_get_set_other; [reflexivity | congruence].
    + discriminate.
  - repeat split.
    + rewrite dict_get_pop_same. symmetry. now apply not_truthy.
    + intros other Hne. now rewrite dict_get_pop_other.
    + intros _. unfold dict_has. now rewrite dict_get_pop_same.
Qed.

Lemma save_notes_then_load_notes_witness :
  snd (load_notes (save_notes (fst (load_notes some_notes "https://b.example/"))
                     "  second ") "https://b.example/")
  = strip "  second "
  /\ (forall other,
        other <> "https://b.example/" ->
        snd (load_notes
               (save_notes (fst (load_notes some_notes "https://b.example/"))
                  "  second ") other)
        = snd (load_notes some_notes other))
  /\ NotesDialog.last_saved
       (save_notes (fst (load_notes some_notes "https://b.example/")) "  second ")
     = Some (all_notes
               (save_notes (fst (load_notes some_notes "https://b.example/"))
                  "  second "))
  /\ (truthy (strip "  second ") = false ->
      dict_has
        (all_notes
           (save_notes (fst (load_notes some_notes "https://b.example/"))
              "  second ")) "https://b.example/" = false)
  /\ save_notes (mkDialog (all_notes some_notes) None
                   (NotesDialog.last_saved some_notes)) "  second "
     = mkDialog (all_notes some_notes) None (NotesDialog.last_saved some_notes).
Proof.
  apply (save_notes_then_load_notes some_notes "https://b.example/" "  second ").
  reflexivity.
Defined.

(** ** The address bar *)
Import MainWindow.

Lemma rstrip_nonspace (c : ascii) (s : string) :
  isspace c = false -> rstrip (String c s) = String c (rstrip s).
Proof.
  intros Hc. simpl. destruct (rstrip s); [now rewrite Hc | reflexivity].
Qed.

Lemma rstrip_idempotent (s : string) : rstrip (rstrip s) = rstrip s.
Proof.
  induction s as [|c s IH]; simpl; [reflexivity|].
  destruct (rstrip s) as [|c' r] eqn:Hr.
  - destruct (isspace c) eqn:Hc; simpl; [reflexivity | now rewrite Hc].
  - change (rstrip (String c (String c' r)))
      with (match rstrip (String c' r) with
            | EmptyString => if isspace c then EmptyString else String c EmptyString
            | r' => String c r'
            end).
    now rewrite IH.
Qed.

Lemma rstrip_app (a b : string) :
  b <> "" -> rstrip b = b -> rstrip (a ++ b) = (a ++ b)%string.
Proof.
  intros Hb Hfix. induction a as [|c a IH]; simpl; [exact Hfix|].
  rewrite IH. destruct (a ++ b)%string eqn:Hab; [|reflexivity].
  destruct a; simpl in Hab; [contradiction | discriminate].
Qed.

Lemma lstrip_head (s : string) :
  lstrip s = "" \/ exists c r, lstrip s = String c r /\ isspace c = false.
Proof.
  induction s as [|c s IH]; simpl; [now left|].
  destruct (isspace c) eqn:Hc; [exact IH|]. right. now exists c, s.
Qed.

(** What [strip] returns is empty or free of white space at both ends. *)
Lemma strip_fixed (text : string) :
  strip text <> "" ->
  lstrip (strip text) = strip text /\ rstrip (strip text) = strip text.
Proof.
  unfold strip. intros Hne. split; [|apply rstrip_idempotent].
  destruct (lstrip_head text) as [He | (c & r & He & Hc)].
  - rewrite He in Hne. now elim Hne.
  - rewrite He, (rstrip_nonspace c r Hc). simpl. now rewrite Hc.
Qed.

(** X22.  [navigate_to_url] loads nothing exactly when the text of the
    address bar is blank.  Otherwise the URL it hands to the view starts
    with http or with file://: a text that already does is taken as it is,
    stripped, and any other text is put behind https:// or behind the search
    address.  Entering the URL it produced gives that URL again. *)
Theorem navigate_to_url_resolves (text : string) :
  (navigate_to_url text = None <-> strip text = "")
  /\ (forall url,
        navigate_to_url text = Some url ->
        (prefix "http" url = true \/ prefix "file://" url = true)
        /\ navigate_to_url url = Some url)
  /\ navigate_to_url " example.com " = Some "https://example.com"
  /\ navigate_to_url "rocq prover" = Some "https://www.google.com/search?q=rocq prover".
Proof.
  split; [|split; [|split; reflexivity]].
  - unfold navigate_to_url. destruct (strip text) as [|a s] eqn:Hs.
    + split; reflexivity.
    + split; [|discriminate]. cbn [truthy negb].
      repeat match goal with
             | |- context [if ?b then _ else _] => destruct b
             end; discriminate.
  - intros url Hnav. unfold navigate_to_url in Hnav.
    destruct (truthy (strip text)) eqn:Ht; simpl in Hnav; [|discriminate].
    assert (Hne : strip text <> "").
    { intros He. rewrite He in Ht. discriminate. }
    destruct (strip_fixed text Hne) as [Hl Hr].
    assert (Hpre : forall pre c,
               isspace c = false ->
               strip (String c pre ++ strip text) = (String c pre ++ strip text)%string).
    { intros pre c Hc. unfold strip at 1. simpl lstrip. rewrite Hc.
      change (String c (pre ++ strip text)) with (String c pre ++ strip text)%string.
      now apply rstrip_app. }
    destruct (negb (prefix "http" (strip text)) && negb (prefix "file://" (strip text)))
      eqn:Hscheme.
    + destruct (str_in "." (strip text) && negb (str_in " " (strip text)));
        inversion Hnav; subst url; clear Hnav.
      * split; [now left|]. unfold navigate_to_url.
        pose proof (Hpre "ttps://" "h"%char eq_refl) as Hfix.
        cbn [append] in Hfix. cbn [append]. rewrite Hfix. reflexivity.
      * split; [now left|]. unfold navigate_to_url.
        pose proof (Hpre "ttps://www.google.com/search?q=" "h"%char eq_refl)
          as Hfix.
        cbn [append] in Hfix. cbn [append]. rewrite Hfix. reflexivity.
    + inversion Hnav; subst url; clear Hnav.
      assert (Hfix : strip (strip text) = strip text).
      { unfold strip at 1. now rewrite Hl, Hr. }
      split.
      * apply andb_false_iff in Hscheme.
        destruct Hscheme as [H | H]; apply negb_false_iff in H; auto.
      * unfold navigate_to_url. rewrite Hfix, Ht, Hscheme. reflexivity.
Qed.

(** ** Tables without headers, and tables inside tables *)
Lemma to_uint_not_Nil (n : nat) : Nat.to_uint n <> Decimal.Nil.
Proof.
  destruct n as [|n]; [discriminate|].
  intros H. pose proof (Unsigned.of_to (S n)) as Hof.
  rewrite H in Hof. discriminate.
Qed.

Lemma str_of_nat_inj (a b : nat) : str_of_nat a = str_of_nat b -> a = b.
Proof.
  unfold str_of_nat. intros H. apply Unsigned.to_uint_inj.
  pose proof (NilZero.usu (Nat.to_uint a) (to_uint_not_Nil a)) as Ha.
  pose proof (NilZero.usu (Nat.to_uint b) (to_uint_not_Nil b)) as Hb.
  rewrite H in Ha. rewrite Ha in Hb. now inversion Hb.
Qed.

Lemma col_name_no_headers_inj (a b : nat) :
  col_name [] a = col_name [] b -> a = b.
Proof.
  unfold col_name. intros H. apply str_of_nat_inj.
  simpl in H. now inversion H.
Qed.

Lemma length_dict_set_absent {V : Type} (d : dict V) (k : string) (v : V) :
  ~ In k (dict_keys d) -> List.length (dict_set d k v) = S (List.length d).
Proof.
  induction d as [|[k0 v0] d IH]; simpl; intros Hnot; [reflexivity|].
  destruct (String.eqb_spec k0 k) as [->|Hne]; [elim Hnot; now left|].
  simpl. rewrite IH; [reflexivity|]. intros Hin. apply Hnot. now right.
Qed.

Lemma cells_without_headers (cells : list node) :
  forall s d,
    (forall k, In k (dict_keys d) ->
               In k ["type"; "table_index"; "row_index"]
               \/ exists j, j < s /\ k = col_name [] j) ->
    List.length (assign_cells_from [] s d cells)
    = List.length d + List.length cells.
Proof.
  induction cells as [|c cells IH]; intros s d Hkeys; simpl.
  - unfold assign_cells_from. simpl. lia.
  - unfold assign_cells_from. simpl.
    fold (assign_cells_from [] (S s) (assign_cell [] d (s, c)) cells).
    assert (Habs : ~ In (col_name [] s) (dict_keys d)).
    { intros Hin. destruct (Hkeys _ Hin) as [Hmeta | (j & Hj & Heq)].
      - simpl in Hmeta. destruct Hmeta as [H | [H | [H | []]]]; discriminate.
      - apply col_name_no_headers_inj in Heq. lia. }
    rewrite IH.
    + unfold assign_cell. simpl fst. simpl snd.
      rewrite (length_dict_set_absent d _ _ Habs). lia.
    + intros k Hk. unfold assign_cell in Hk. simpl fst in Hk. simpl snd in Hk.
      apply dict_set_keys_In in Hk. destruct Hk as [Hk | ->].
      * destruct (Hkeys k Hk) as [Hmeta | (j & Hj & Heq)]; [now left|].
        right. exists j. split; [lia | exact Heq].
      * right. exists s. split; [lia | reflexivity].
Qed.

(** X23.  In a table without headers no cell is lost: the record of a row
    has exactly 3 + (number of cells) columns, and the cell at position k is
    found under column_k with its text. *)
Theorem headerless_row_keeps_every_cell (i j : nat) (cells : list node) :
  List.length (row_data [] i j cells) = 3 + List.length cells
  /\ (forall k cell,
        nth_error cells k = Some cell ->
        dict_get (row_data [] i j cells) ("column_" ++ str_of_nat k)%string
        = Some (VStr (get_text cell))).
Proof.
  change (row_data [] i j cells) with (assign_cells_from [] 0 (row_base i j) cells).
  split.
  - apply (cells_without_headers cells 0 (row_base i j)).
    intros k Hk. left. exact Hk.
  - intros k cell Hk.
    apply (cells_from_last_wins [] cells 0 (row_base i j) k cell Hk).
    intros k' Hlt _ Heq. apply col_name_no_headers_inj in Heq. simpl in Heq. lia.
Qed.





(** ** Extracted text carries no white space at its ends *)

Lemma append_empty_r (s : string) : (s ++ "")%string = s.
Proof. induction s as [|c s IH]; simpl; [reflexivity | now rewrite IH]. Qed.

Lemma joined_trimmed (pieces : list string) :
  (forall p, In p pieces -> p <> "" /\ lstrip p = p /\ rstrip p = p) ->
  lstrip (fold_right String.append "" pieces) = fold_right String.append "" pieces
  /\ rstrip (fold_right String.append "" pieces)
     = fold_right String.append "" pieces.
Proof.
  induction pieces as [|p pieces IH]; intros Hp; simpl; [now split|].
  destruct (Hp p (or_introl eq_refl)) as (Hne & Hl & Hr).
  destruct IH as [IHl IHr]; [intros q Hq; apply Hp; now right|].
  split.
  - destruct p as [|c p]; [now elim Hne|].
    destruct (lstrip_head (String c p)) as [He | (c' & r & He & Hc)].
    + rewrite Hl in He. discriminate.
    + rewrite Hl in He. inversion He. subst c' r. simpl. now rewrite Hc.
  - destruct (fold_right String.append "" pieces) as [|c r] eqn:Hrest.
    + now rewrite append_empty_r.
    + apply rstrip_app; [discriminate | exact IHr].
Qed.

Lemma get_text_trimmed (n : node) : strip (get_text n) = get_text n.
Proof.
  unfold get_text.
  destruct (joined_trimmed (stripped_strings n)) as [Hl Hr].
  - intros p Hp. unfold stripped_strings in Hp.
    apply in_flat_map in Hp. destruct Hp as [d [_ Hd]].
    destruct d as [s | name attrs cs]; [|contradiction].
    destruct (truthy (strip s)) eqn:Ht; [|contradiction].
    destruct Hd as [<- | []].
    assert (Hne : strip s <> "").
    { intros He. rewrite He in Ht. discriminate. }
    split; [exact Hne | now apply strip_fixed].
  - unfold strip. now rewrite Hl, Hr.
Qed.

(** X25.  What the extractor takes from an element with get_text(strip=True)
    never starts or ends with white space: stripping the content of a text
    record, the text of a link record or the value a table cell is stored
    under changes nothing. *)
Theorem extracted_text_is_trimmed (soup : node) :
  (forall rec, In rec (extract_text soup) ->
     exists content,
       dict_get rec "content" = Some (VStr content) /\ strip content = content)
  /\ (forall rec, In rec (extract_links soup) ->
        exists text,
          dict_get rec "text" = Some (VStr text) /\ strip text = text)
  /\ (forall headers i j cells k cell,
        nth_error cells k = Some cell ->
        (forall k', k < k' -> k' < List.length cells ->
                    col_name headers k' <> col_name headers k) ->
        exists text,
          dict_get (row_data headers i j cells) (col_name headers k)
          = Some (VStr text)
          /\ strip text = text).
Proof.
  split; [|split].
  - intros rec H. rewrite extract_text_emits in H.
    apply in_flat_map in H. destruct H as [[tag keep] [_ H]].
    unfold tag_records in H. apply in_flat_map in H.
    destruct H as [[i e] [_ H]]. apply In_emit_text in H.
    destruct H as [_ ->]. exists (get_text e). split; [reflexivity|].
    apply get_text_trimmed.
  - intros rec H. rewrite extract_links_emits in H.
    apply in_flat_map in H. destruct H as [[i a] [_ [<- | []]]].
    exists (get_text a). split; [reflexivity | apply get_text_trimmed].
  - intros headers i j cells k cell Hk Hlast.
    exists (get_text cell). split; [|apply get_text_trimmed].
    apply (cells_from_last_wins headers cells 0 (row_base i j) k cell Hk Hlast).
Qed.

(** ** The columns of the table made from the records *)

Lemma add_keys_from (ks : list string) :
  forall cols,
    NoDup cols ->
    NoDup (fold_left (fun cols k => if mem_string k cols then cols else cols ++ [k])
             ks cols)
    /\ (forall c,
          In c (fold_left
                  (fun cols k => if mem_string k cols then cols else cols ++ [k])
                  ks cols) ->
          In c cols \/ In c ks)
    /\ (forall c0 rest,
          cols = c0 :: rest ->
          exists rest',
            fold_left (fun cols k => if mem_string k cols then cols else cols ++ [k])
              ks cols = c0 :: rest').
Proof.
  induction ks as [|k ks IH]; intros cols Hnd; simpl.
  - split; [exact Hnd|]. split; [intros c H; now left|].
    intros c0 rest ->. now exists rest.
  - destruct (mem_string k cols) eqn:Hm.
    + destruct (IH cols Hnd) as (H1 & H2 & H3).
      split; [exact H1|]. split; [|exact H3].
      intros c Hc. destruct (H2 c Hc); [now left | right; now right].
    + assert (Hnot : ~ In k cols).
      { intros Hin. apply mem_string_In in Hin. rewrite Hin in Hm. discriminate. }
      assert (Hnd' : NoDup (cols ++ [k])).
      { apply NoDup_app; [exact Hnd | repeat constructor; intros [] |].
        intros x Hx [<- | []]. contradiction. }
      destruct (IH (cols ++ [k]) Hnd') as (H1 & H2 & H3).
      split; [exact H1|]. split.
      * intros c Hc. destruct (H2 c Hc) as [Hc' | Hc']; [|right; now right].
        apply in_app_or in Hc'. destruct Hc' as [Hc' | [<- | []]];
          [now left | right; now left].
      * intros c0 rest ->. apply (H3 c0 (rest ++ [k])). reflexivity.
Qed.

Lemma union_fold_from {V : Type} (data : list (dict V)) :
  forall cols,
    NoDup cols ->
    NoDup (fold_left
             (fun cols r =>
                fold_left
                  (fun cols k => if mem_string k cols then cols else cols ++ [k])
                  (dict_keys r) cols)
             data cols)
    /\ (forall c,
          In c (fold_left
                  (fun cols r =>
                     fold_left
                       (fun cols k => if mem_string k cols then cols else cols ++ [k])
                       (dict_keys r) cols)
                  data cols) ->
          In c cols \/ exists r, In r data /\ In c (dict_keys r))
    /\ (forall c0 rest,
          cols = c0 :: rest ->
          exists rest',
            fold_left
              (fun cols r =>
                 fold_left
                   (fun cols k => if mem_string k cols then cols else cols ++ [k])
                   (dict_keys r) cols)
              data cols = c0 :: rest').
Proof.
  induction data as [|r data IH]; intros cols Hnd; simpl.
  - split; [exact Hnd|]. split; [intros c H; now left|].
    intros c0 rest ->. now exists rest.
  - destruct (add_keys_from (dict_keys r) cols Hnd) as (A1 & A2 & A3).
    destruct (IH _ A1) as (H1 & H2 & H3).
    split; [exact H1|]. split.
    + intros c Hc. destruct (H2 c Hc) as [Hc' | (r' & Hr' & Hk)].
      * destruct (A2 c Hc') as [Hcols | Hkeys]; [now left|].
        right. exists r. split; [now left | exact Hkeys].
      * right. exists r'. split; [now right | exact Hk].
    + intros c0 rest Hcols. destruct (A3 c0 rest Hcols) as [rest1 Hr1].
      apply (H3 c0 rest1 Hr1).
Qed.

(** X26.  The table made from the records has one column for each key that
    occurs in some record and no other column; no column name occurs twice;
    its first column is the first key of the first record; and it has one
    row per record, labelled 0, 1, .... *)
Theorem table_columns_are_record_keys (all_data : list record) :
  NoDup (map fst (columns (DataFrame_of all_data)))
  /\ (forall c,
        In c (map fst (columns (DataFrame_of all_data))) <->
        exists r, In r all_data /\ In c (dict_keys r))
  /\ (forall k v r0 rest,
        all_data = ((k, v) :: r0) :: rest ->
        exists t others, columns (DataFrame_of all_data) = (k, t) :: others)
  /\ index (DataFrame_of all_data) = seq 0 (List.length all_data).
Proof.
  assert (Hnames : map fst (columns (DataFrame_of all_data)) = union_keys all_data).
  { unfold DataFrame_of, from_records. simpl. rewrite map_map. simpl.
    apply map_id. }
  destruct (union_fold_from all_data [] (NoDup_nil _)) as (H1 & H2 & _).
  split; [rewrite Hnames; exact H1|]. split; [|split].
  - intros c. rewrite Hnames. split.
    + intros Hc. destruct (H2 c Hc) as [[] | H]. exact H.
    + intros (r & Hr & Hk). now apply (union_keys_has all_data r c).
  - intros k v r0 rest ->.
    unfold DataFrame_of, from_records. simpl columns.
    unfold union_keys. simpl fold_left at 1.
    destruct (add_keys_from (dict_keys r0) [k]) as (A1 & _ & A3).
    { repeat constructor. intros []. }
    destruct (A3 k [] eq_refl) as [rest1 Hr1].
    destruct (union_fold_from rest (k :: rest1)) as (_ & _ & B3).
    { rewrite <- Hr1. exact A1. }
    destruct (B3 k rest1 eq_refl) as [rest2 Hr2].
    simpl. simpl in Hr1. rewrite Hr1. rewrite Hr2. simpl. eauto.
  - unfold index, DataFrame_of, from_records. simpl. apply map_fst_enumerate.
Qed.
